(** * Dataset labeling tool: the labeling session and its canvas

    A shallow embedding of the client-side labeling session of
    [apps/web/app/home/labeling/page.tsx] (component [LabelingPage]) and of
    the bounding-box canvas of
    [apps/web/app/home/labeling/_components/image-canvas.tsx]
    (component [ImageCanvas]).

    Conventions of the embedding.
    - A JavaScript [number] holding an identifier or an array index is an
      integer ([Z]).  The numbers of the canvas (coordinates, widths, the
      scale) are embedded twice.  Over exact rationals ([Q]), with the
      order-theoretic comparisons, [Math.min] and [Math.max] and without
      rounding or not-a-number, for the properties that rest on the control
      flow of the canvas and on the order of its numbers.  Over IEEE 754
      binary64 numbers (module [F64]), operation by operation, for the
      properties that depend on rounding, on not-a-number or on the double
      [0.005]: the size test of a drawn box, the box a drag hands over and
      the clamp of a mouse position.
    - An optional object field ([currentImagePath?: string]) is an [option];
      JavaScript truthiness ([!x], [x && ...]) is written out: the empty
      string and the number [0] are falsy, like [undefined] and [null].
    - React state is a record with one field per [useState] hook; an event
      handler is a computation over that record and over the backend the
      HTTP client talks to, and leaves a trace of what it showed and called.
*)

From Stdlib Require Import List ZArith QArith Qminmax String Bool Lia.
Import ListNotations.

Local Open Scope string_scope.
Local Open Scope Z_scope.

(* ------------------------------------------------------------------ *)
(** ** JavaScript values *)

(** Truthiness of [string | undefined | null]. *)
Definition truthy_string (o : option string) : bool :=
  match o with
  | Some s => negb (String.eqb s "")
  | None => false
  end.

(** Truthiness of [number | undefined | null] for integer-valued numbers. *)
Definition truthy_number (o : option Z) : bool :=
  match o with
  | Some n => negb (n =? 0)
  | None => false
  end.

(** [a || b] on strings: [a] when truthy, else [b]. *)
Definition or_else (o : option string) (dflt : string) : string :=
  match o with
  | Some s => if String.eqb s "" then dflt else s
  | None => dflt
  end.

(** [x > y] and [x >= y] on rationals, as booleans. *)
Definition Qgtb (x y : Q) : bool := negb (Qle_bool x y).
Definition Qgeb (x y : Q) : bool := Qle_bool y x.

(** [arr.filter((v, i) => p(v, i))]. *)
Fixpoint filter_index_from {A : Type} (p : A -> Z -> bool) (i : Z) (l : list A)
  : list A :=
  match l with
  | [] => []
  | a :: l' =>
      if p a i then a :: filter_index_from p (i + 1) l'
      else filter_index_from p (i + 1) l'
  end.

Definition filter_index {A : Type} (p : A -> Z -> bool) (l : list A) : list A :=
  filter_index_from p 0 l.

(** [arr.findIndex(p)]: the first index whose element satisfies [p], or -1. *)
Fixpoint findIndex_from {A : Type} (p : A -> bool) (i : Z) (l : list A) : Z :=
  match l with
  | [] => -1
  | a :: l' => if p a then i else findIndex_from p (i + 1) l'
  end.

Definition findIndex {A : Type} (p : A -> bool) (l : list A) : Z :=
  findIndex_from p 0 l.

(* ------------------------------------------------------------------ *)
(** ** Data model ([page.tsx], lines 36-46) *)

(** [bbox: [number, number, number, number]], that is [x1, y1, x2, y2]. *)
Definition BBox : Type := (Q * Q * Q * Q)%type.

(** Component-wise equality of boxes as rational numbers. *)
Definition bbox_eq (a b : BBox) : Prop :=
  let '(a1, a2, a3, a4) := a in
  let '(b1, b2, b3, b4) := b in
  (a1 == b1 /\ a2 == b2 /\ a3 == b3 /\ a4 == b4)%Q.

Record Annotation : Type := mkAnnotation {
  bbox : BBox;
  class_id : Z;
  class_name : string
}.

Inductive Mode : Type := manual | active_learning.

Definition Mode_eqb (a b : Mode) : bool :=
  match a, b with
  | manual, manual => true
  | active_learning, active_learning => true
  | _, _ => false
  end.

Record LabelingSession : Type := mkSession {
  mode : Mode;
  currentImagePath : option string;
  currentImageId : option string;
  currentSuggestionId : option Z;
  annotations : list Annotation
}.

(** The fields of [CustomDefectType] (declared in [~/types/custom-defects])
    that the labeling page and the canvas read. *)
Record CustomDefectType : Type := mkDefectType {
  id : Z;
  name : string;
  color : option string;
  current_sample_count : Z;
  min_samples_required : Z
}.

(** [defectTypes.find(t => t.id === wanted)]. *)
Definition find_type (wanted : Z) (types : list CustomDefectType)
  : option CustomDefectType :=
  List.find (fun t => id t =? wanted) types.

(** The value every reset installs: [{ mode: 'manual', annotations: [] }].
    It is also the initial value of the [session] hook (lines 50-53). *)
Definition empty_session : LabelingSession :=
  {| mode := manual;
     currentImagePath := None;
     currentImageId := None;
     currentSuggestionId := None;
     annotations := [] |}.

(** The state names of the session: an image is loaded when the page
    renders the canvas and the action buttons, that is when
    [session.currentImagePath] is truthy (lines 367 and 399). *)
Definition image_loaded (s : LabelingSession) : bool :=
  truthy_string (currentImagePath s).

(* ------------------------------------------------------------------ *)
(** ** The backend behind [customDefectsAPI] *)

(** A value appended to a [FormData]: a string, a number rendered by
    [toString()], or the [JSON.stringify({ bbox, class_name })] payload.
    The decimal rendering itself is not modelled. *)
Inductive FormValue : Type :=
| FText (s : string)
| FNumber (n : Z)
| FJson (b : BBox) (cls : string).

(** [FormData]: the appended entries, in order. *)
Definition FormData : Type := list (string * FormValue).

(** A rejected request, as the handlers look at it:
    [err.response?.data?.detail]. *)
Record ApiError : Type := mkApiError {
  detail : option string
}.

(** The two methods of [CustomDefectsAPI] the labeling page calls, over a
    backend state [W].  A method either resolves or rejects, and moves the
    backend to a new state. *)
Class CustomDefectsAPI (W : Type) : Type := {
  addTrainingSample : FormData -> W -> option ApiError * W;
  getCustomDefectTypes : bool -> W -> (list CustomDefectType + ApiError) * W
}.

(** What a handler shows to the user or sends to the backend.
    [AlertSaved n] is the alert of the template string
    [Saved ${n} annotation(s) successfully!]. *)
Inductive Event : Type :=
| Alert (msg : string)
| AlertSaved (count : nat)
| ConsoleError (label : string) (err : ApiError)
| CallAddTrainingSample (data : FormData)
| CallGetCustomDefectTypes (activeOnly : bool).

Definition is_backend_call (e : Event) : bool :=
  match e with
  | CallAddTrainingSample _ | CallGetCustomDefectTypes _ => true
  | _ => false
  end.

Definition is_sample_commit (e : Event) : bool :=
  match e with
  | CallAddTrainingSample _ => true
  | _ => false
  end.

(** The backend calls of a trace, and among them the commits of samples. *)
Definition backend_calls (t : list Event) : list Event :=
  List.filter is_backend_call t.

Definition sample_commits (t : list Event) : list Event :=
  List.filter is_sample_commit t.

(* ------------------------------------------------------------------ *)
(** ** React state of [LabelingPage] (lines 49-57) *)

Record PageState : Type := mkPage {
  defectTypes : list CustomDefectType;
  session : LabelingSession;
  selectedClassId : option Z;
  loading : bool;
  error : option string;
  saving : bool
}.

Definition initial_page : PageState :=
  {| defectTypes := [];
     session := empty_session;
     selectedClassId := None;
     loading := true;
     error := None;
     saving := false |}.

Definition setDefectTypes (v : list CustomDefectType) (p : PageState) : PageState :=
  {| defectTypes := v; session := session p; selectedClassId := selectedClassId p;
     loading := loading p; error := error p; saving := saving p |}.

Definition setSession (v : LabelingSession) (p : PageState) : PageState :=
  {| defectTypes := defectTypes p; session := v; selectedClassId := selectedClassId p;
     loading := loading p; error := error p; saving := saving p |}.

Definition setSelectedClassId (v : option Z) (p : PageState) : PageState :=
  {| defectTypes := defectTypes p; session := session p; selectedClassId := v;
     loading := loading p; error := error p; saving := saving p |}.

Definition setLoading (v : bool) (p : PageState) : PageState :=
  {| defectTypes := defectTypes p; session := session p; selectedClassId := selectedClassId p;
     loading := v; error := error p; saving := saving p |}.

Definition setError (v : option string) (p : PageState) : PageState :=
  {| defectTypes := defectTypes p; session := session p; selectedClassId := selectedClassId p;
     loading := loading p; error := v; saving := saving p |}.

Definition setSaving (v : bool) (p : PageState) : PageState :=
  {| defectTypes := defectTypes p; session := session p; selectedClassId := selectedClassId p;
     loading := loading p; error := error p; saving := v |}.

(** [{ ...prev, mode: m }] and [{ ...prev, annotations: a }]. *)
Definition with_mode (m : Mode) (s : LabelingSession) : LabelingSession :=
  {| mode := m;
     currentImagePath := currentImagePath s;
     currentImageId := currentImageId s;
     currentSuggestionId := currentSuggestionId s;
     annotations := annotations s |}.

Definition with_annotations (a : list Annotation) (s : LabelingSession)
  : LabelingSession :=
  {| mode := mode s;
     currentImagePath := currentImagePath s;
     currentImageId := currentImageId s;
     currentSuggestionId := currentSuggestionId s;
     annotations := a |}.

(* ------------------------------------------------------------------ *)
(** ** Handlers as computations

    A handler runs over the page state and the backend.  It may throw (a
    rejected promise under [await]), and it appends to a trace. *)

Record Run (W A : Type) : Type := mkRun {
  outcome : A + ApiError;
  page : PageState;
  world : W;
  trace : list Event
}.

Arguments mkRun {W A} _ _ _ _.
Arguments outcome {W A} _.
Arguments page {W A} _.
Arguments world {W A} _.
Arguments trace {W A} _.

Definition Eff (W A : Type) : Type := PageState -> W -> Run W A.

Section Effects.
Context {W : Type}.

Definition ret {A : Type} (a : A) : Eff W A :=
  fun p w => mkRun (inl a) p w [].

Definition throw {A : Type} (e : ApiError) : Eff W A :=
  fun p w => mkRun (inr e) p w [].

Definition bind {A B : Type} (m : Eff W A) (f : A -> Eff W B) : Eff W B :=
  fun p w =>
    let r := m p w in
    match outcome r with
    | inl a =>
        let r' := f a (page r) (world r) in
        mkRun (outcome r') (page r') (world r') (trace r ++ trace r')
    | inr e => mkRun (inr e) (page r) (world r) (trace r)
    end.

(** [try { m } catch (err) { h(err) }]. *)
Definition try_catch {A : Type} (m : Eff W A) (h : ApiError -> Eff W A)
  : Eff W A :=
  fun p w =>
    let r := m p w in
    match outcome r with
    | inl _ => r
    | inr e =>
        let r' := h e (page r) (world r) in
        mkRun (outcome r') (page r') (world r') (trace r ++ trace r')
    end.

(** [try { m } finally { f }]: [f] runs on both exits; the exit of [m]
    stands unless [f] itself throws. *)
Definition finally {A : Type} (m : Eff W A) (f : Eff W unit) : Eff W A :=
  fun p w =>
    let r := m p w in
    let r' := f (page r) (world r) in
    mkRun (match outcome r' with
           | inl _ => outcome r
           | inr e => inr e
           end)
          (page r') (world r') (trace r ++ trace r').

Definition emit (e : Event) : Eff W unit :=
  fun p w => mkRun (inl tt) p w [e].

(** A state setter, in both its forms [set(v)] and [set(prev => ...)]. *)
Definition update (f : PageState -> PageState) : Eff W unit :=
  fun p w => mkRun (inl tt) (f p) w [].

Definition alert (msg : string) : Eff W unit := emit (Alert msg).

(** [for (const a of l) { body(a) }]: a throwing body ends the loop. *)
Fixpoint for_of {A : Type} (l : list A) (body : A -> Eff W unit) : Eff W unit :=
  match l with
  | [] => ret tt
  | a :: l' => bind (body a) (fun _ => for_of l' body)
  end.
End Effects.

Declare Scope eff_scope.
Delimit Scope eff_scope with eff.
Notation "x <- m ;; k" := (bind m (fun x => k))
  (at level 61, m at next level, right associativity) : eff_scope.
Notation "m ;; k" := (bind m (fun _ => k))
  (at level 61, right associativity) : eff_scope.

(* ------------------------------------------------------------------ *)
(** ** The handlers of [LabelingPage]

    A handler is a closure of one render: what it reads through the names
    [session], [selectedClassId] and [defectTypes] is the state [r] of that
    render, while setters act on the current state. *)

Section Handlers.
Context {W : Type} {api : CustomDefectsAPI W}.
Local Open Scope eff_scope.

(** [await customDefectsAPI.addTrainingSample(formData)]. *)
Definition await_addTrainingSample (data : FormData) : Eff W unit :=
  fun p w =>
    let res := addTrainingSample data w in
    mkRun (match fst res with
           | None => inl tt
           | Some e => inr e
           end)
          p (snd res) [CallAddTrainingSample data].

(** [await customDefectsAPI.getCustomDefectTypes(activeOnly)]. *)
Definition await_getCustomDefectTypes (activeOnly : bool)
  : Eff W (list CustomDefectType) :=
  fun p w =>
    let res := getCustomDefectTypes activeOnly w in
    mkRun (fst res) p (snd res) [CallGetCustomDefectTypes activeOnly].

(** An [if] without [else]. *)
Definition when (b : bool) (m : Eff W unit) : Eff W unit :=
  if b then m else ret tt.

(** Lines 63-78. *)
Definition loadDefectTypes (r : PageState) : Eff W unit :=
  finally
    (try_catch
       (update (setLoading true) ;;
        update (setError None) ;;
        types <- await_getCustomDefectTypes true ;;
        update (setDefectTypes types) ;;
        match types with
        | t0 :: _ =>
            when (negb (truthy_number (selectedClassId r)))
                 (update (setSelectedClassId (Some (id t0))))
        | [] => ret tt
        end)
       (fun err =>
          emit (ConsoleError "Failed to load defect types:" err) ;;
          update (setError
                    (Some (or_else (detail err) "Failed to load defect types")))))
    (update (setLoading false)).

(** Lines 80-87. *)
Definition handleImageUpload (imagePath imageId : string) : Eff W unit :=
  update (setSession
            {| mode := manual;
               currentImagePath := Some imagePath;
               currentImageId := Some imageId;
               currentSuggestionId := None;
               annotations := [] |}).

(** Lines 89-101. *)
Definition handleActiveLearningSelect
    (imagePath imageId : string) (suggestionId : Z) : Eff W unit :=
  update (setSession
            {| mode := active_learning;
               currentImagePath := Some imagePath;
               currentImageId := Some imageId;
               currentSuggestionId := Some suggestionId;
               annotations := [] |}).

(** Lines 103-123. *)
Definition handleAddAnnotation (r : PageState) (b : BBox) : Eff W unit :=
  if negb (truthy_number (selectedClassId r)) then
    alert "Please select a defect class first"
  else
    let cid := match selectedClassId r with Some c => c | None => 0 end in
    match find_type cid (defectTypes r) with
    | None => ret tt
    | Some defectType =>
        update (fun p =>
          setSession
            (with_annotations
               (annotations (session p) ++
                [ {| bbox := b; class_id := cid; class_name := name defectType |} ])%list
               (session p))
            p)
    end.

(** Lines 125-130. *)
Definition handleRemoveAnnotation (index : Z) : Eff W unit :=
  update (fun p =>
    setSession
      (with_annotations
         (filter_index (fun _ i => negb (i =? index)) (annotations (session p)))
         (session p))
      p).

(** The [FormData] built for one annotation (lines 143-154). *)
Definition sample_form (s : LabelingSession) (a : Annotation) : FormData :=
  ([ ("defect_type_id", FNumber (class_id a));
     ("image_path",
      FText (match currentImagePath s with Some x => x | None => "" end)) ]
   ++ (if truthy_string (currentImageId s)
       then [ ("image_id",
               FText (match currentImageId s with Some x => x | None => "" end)) ]
       else [])
   ++ [ ("annotations", FJson (bbox a) (class_name a));
        ("annotation_format", FText "bbox");
        ("source",
         FText (if Mode_eqb (mode s) active_learning
                then "active_learning" else "manual")) ])%list.

(** Lines 132-181.  The block guarded by [session.mode === 'active_learning'
    && session.currentSuggestionId] is empty in the source (its call is
    commented out). *)
Definition handleSaveAnnotations (r : PageState) : Eff W unit :=
  if negb (truthy_string (currentImagePath (session r)))
     || Nat.eqb (List.length (annotations (session r))) 0
  then alert "Please add at least one annotation"
  else
    finally
      (try_catch
         (update (setSaving true) ;;
          for_of (annotations (session r))
                 (fun a => await_addTrainingSample (sample_form (session r) a)) ;;
          when (Mode_eqb (mode (session r)) active_learning
                && truthy_number (currentSuggestionId (session r)))
               (ret tt) ;;
          emit (AlertSaved (List.length (annotations (session r)))) ;;
          update (setSession empty_session) ;;
          loadDefectTypes r)
         (fun err =>
            emit (ConsoleError "Failed to save annotations:" err) ;;
            alert (or_else (detail err) "Failed to save annotations")))
      (update (setSaving false)).

(** Lines 183-193; the guarded block is empty here too. *)
Definition handleSkip (r : PageState) : Eff W unit :=
  when (Mode_eqb (mode (session r)) active_learning
        && truthy_number (currentSuggestionId (session r)))
       (ret tt) ;;
  update (setSession empty_session).

(** The two mode buttons (lines 266 and 280):
    [setSession(prev => ({ ...prev, mode }))]. *)
Definition selectMode (m : Mode) : Eff W unit :=
  update (fun p => setSession (with_mode m (session p)) p).

(** A class button (line 306). *)
Definition selectClass (classId : Z) : Eff W unit :=
  update (setSelectedClassId (Some classId)).
End Handlers.

(* ------------------------------------------------------------------ *)
(** ** The canvas ([image-canvas.tsx]) *)

(** [{ x, y }]. *)
Record Point : Type := mkPoint {
  px : Q;
  py : Q
}.

(** What the canvas reads of the loaded [HTMLImageElement]. *)
Record ImageEl : Type := mkImageEl {
  img_width : Q;
  img_height : Q
}.

(** What it reads of the [HTMLCanvasElement]: [width], [height], and the
    [left] and [top] of [getBoundingClientRect()]. *)
Record CanvasEl : Type := mkCanvasEl {
  cv_width : Q;
  cv_height : Q;
  rect_left : Q;
  rect_top : Q
}.

Record MouseEvent : Type := mkMouseEvent {
  clientX : Q;
  clientY : Q;
  ctrlKey : bool;
  metaKey : bool
}.

(** The hooks of [ImageCanvas] (lines 30-38). *)
Record CanvasState : Type := mkCanvas {
  canvasRef : option CanvasEl;
  image : option ImageEl;
  scale : Q;
  offset : Point;
  isDrawing : bool;
  drawStart : option Point;
  currentBox : option BBox;
  hoveredIndex : option Z
}.

(** A call the canvas makes out of itself: one of its two callback props,
    or an alert. *)
Inductive CanvasCall : Type :=
| OnAddAnnotation (b : BBox)
| OnRemoveAnnotation (index : Z)
| CanvasAlert (msg : string).

Definition setScale (v : Q) (c : CanvasState) : CanvasState :=
  {| canvasRef := canvasRef c; image := image c; scale := v; offset := offset c;
     isDrawing := isDrawing c; drawStart := drawStart c;
     currentBox := currentBox c; hoveredIndex := hoveredIndex c |}.

Definition setOffset (v : Point) (c : CanvasState) : CanvasState :=
  {| canvasRef := canvasRef c; image := image c; scale := scale c; offset := v;
     isDrawing := isDrawing c; drawStart := drawStart c;
     currentBox := currentBox c; hoveredIndex := hoveredIndex c |}.

Definition setIsDrawing (v : bool) (c : CanvasState) : CanvasState :=
  {| canvasRef := canvasRef c; image := image c; scale := scale c; offset := offset c;
     isDrawing := v; drawStart := drawStart c;
     currentBox := currentBox c; hoveredIndex := hoveredIndex c |}.

Definition setDrawStart (v : option Point) (c : CanvasState) : CanvasState :=
  {| canvasRef := canvasRef c; image := image c; scale := scale c; offset := offset c;
     isDrawing := isDrawing c; drawStart := v;
     currentBox := currentBox c; hoveredIndex := hoveredIndex c |}.

Definition setCurrentBox (v : option BBox) (c : CanvasState) : CanvasState :=
  {| canvasRef := canvasRef c; image := image c; scale := scale c; offset := offset c;
     isDrawing := isDrawing c; drawStart := drawStart c;
     currentBox := v; hoveredIndex := hoveredIndex c |}.

Definition setHoveredIndex (v : option Z) (c : CanvasState) : CanvasState :=
  {| canvasRef := canvasRef c; image := image c; scale := scale c; offset := offset c;
     isDrawing := isDrawing c; drawStart := drawStart c;
     currentBox := currentBox c; hoveredIndex := v |}.

(** [Math.max(0, Math.min(1, v))] (lines 141-142). *)
Definition clamp01 (v : Q) : Q := Qmax 0 (Qmin 1 v).

(** Lines 122-144, over rationals: dividing by a scaled size of 0 gives 0
    here, where the doubles of the code give not-a-number or an infinity;
    [F64.getCanvasCoordinates] below has the doubles. *)
Definition getCanvasCoordinates (c : CanvasState) (e : MouseEvent) : option Point :=
  match canvasRef c, image c with
  | Some canvas, Some img =>
      let mouseX := (clientX e - rect_left canvas)%Q in
      let mouseY := (clientY e - rect_top canvas)%Q in
      let scaledWidth := (img_width img * scale c)%Q in
      let scaledHeight := (img_height img * scale c)%Q in
      let x := ((cv_width canvas - scaledWidth) / 2 + px (offset c))%Q in
      let y := ((cv_height canvas - scaledHeight) / 2 + py (offset c))%Q in
      let normalizedX := ((mouseX - x) / scaledWidth)%Q in
      let normalizedY := ((mouseY - y) / scaledHeight)%Q in
      Some {| px := clamp01 normalizedX; py := clamp01 normalizedY |}
  | _, _ => None
  end.

(** Lines 146-158. *)
Definition handleMouseDown (selected : option Z) (c : CanvasState) (e : MouseEvent)
  : CanvasState * list CanvasCall :=
  if negb (truthy_number selected) then
    (c, [CanvasAlert "Please select a defect class first"])
  else
    match getCanvasCoordinates c e with
    | None => (c, [])
    | Some coords =>
        (setCurrentBox (Some (px coords, py coords, px coords, py coords))
           (setDrawStart (Some coords) (setIsDrawing true c)),
         [])
    end.

(** The box spanned by the drag start and the current point
    (lines 166-171). *)
Definition drag_box (start coords : Point) : BBox :=
  (Qmin (px start) (px coords), Qmin (py start) (py coords),
   Qmax (px start) (px coords), Qmax (py start) (py coords)).

(** The predicate of the hover test (lines 174-177). *)
Definition inside (coords : Point) (ann : Annotation) : bool :=
  let '(x1, y1, x2, y2) := bbox ann in
  Qgeb (px coords) x1 && Qle_bool (px coords) x2
  && Qgeb (py coords) y1 && Qle_bool (py coords) y2.

(** Lines 160-179. *)
Definition handleMouseMove (anns : list Annotation) (c : CanvasState)
    (e : MouseEvent) : CanvasState * list CanvasCall :=
  match isDrawing c, drawStart c with
  | true, Some start =>
      match getCanvasCoordinates c e with
      | None => (c, [])
      | Some coords =>
          let hoveredIdx := findIndex (inside coords) anns in
          (setHoveredIndex (if hoveredIdx >=? 0 then Some hoveredIdx else None)
             (setCurrentBox (Some (drag_box start coords)) c),
           [])
      end
  | _, _ => (c, [])
  end.

(** [x2 - x1] and [y2 - y1] of a box (lines 188-189). *)
Definition box_width (b : BBox) : Q :=
  let '(x1, _, x2, _) := b in (x2 - x1)%Q.

Definition box_height (b : BBox) : Q :=
  let '(_, y1, _, y2) := b in (y2 - y1)%Q.

(** The minimum size of a box, as the literal of line 192. *)
Definition min_box_size : Q := 5 # 1000.

(** Lines 181-199, with the size test over rationals; [F64.handleMouseUp]
    below tests the rounded difference against the double [0.005]. *)
Definition handleMouseUp (c : CanvasState) : CanvasState * list CanvasCall :=
  match isDrawing c, currentBox c with
  | true, Some box =>
      let width := box_width box in
      let height := box_height box in
      (setCurrentBox None (setDrawStart None (setIsDrawing false c)),
       if Qgtb width min_box_size && Qgtb height min_box_size
       then [OnAddAnnotation box]
       else [])
  | _, _ => (setIsDrawing false c, [])
  end.

(** Lines 201-208. *)
Definition handleCanvasClick (c : CanvasState) (e : MouseEvent)
  : CanvasState * list CanvasCall :=
  match hoveredIndex c with
  | Some i => (c, if ctrlKey e || metaKey e then [OnRemoveAnnotation i] else [])
  | None => (c, [])
  end.

(** Lines 210-215. *)
Definition handleZoomIn (c : CanvasState) : CanvasState :=
  setScale (Qmin (scale c * (12 # 10)) 5) c.

Definition handleZoomOut (c : CanvasState) : CanvasState :=
  setScale (Qmax (scale c / (12 # 10)) (1 # 10)) c.

Definition handleReset (c : CanvasState) : CanvasState :=
  setOffset {| px := 0; py := 0 |} (setScale 1 c).

(* ------------------------------------------------------------------ *)
(** ** The canvas mounted in the page (lines 399-408)

    The page passes [handleAddAnnotation] and [handleRemoveAnnotation] as
    the two callback props, so a call of the canvas runs the page's
    handler. *)

Section Wiring.
Context {W : Type} {api : CustomDefectsAPI W}.

Definition run_call (r : PageState) (call : CanvasCall) : Eff W unit :=
  match call with
  | OnAddAnnotation b => handleAddAnnotation r b
  | OnRemoveAnnotation index => handleRemoveAnnotation index
  | CanvasAlert msg => alert msg
  end.

(** Releasing the mouse over the mounted canvas: the canvas handler, then
    the page handlers it called. *)
Definition mouseUp_on_page (r : PageState) (c : CanvasState)
  : CanvasState * Eff W unit :=
  let res := handleMouseUp c in
  (fst res, for_of (snd res) (run_call r)).
End Wiring.

(* ------------------------------------------------------------------ *)
(** ** The sample store seen from outside

    What the backend answers to a sequence of sample requests issued in
    order from the state [w], independently of any handler. *)

Section StoreBehaviour.
Context {W : Type} {api : CustomDefectsAPI W}.

(** The position and the error of the first rejected request, if any. *)
Fixpoint first_rejected (reqs : list FormData) (w : W) : option (nat * ApiError) :=
  match reqs with
  | [] => None
  | d :: ds =>
      match fst (addTrainingSample d w) with
      | Some e => Some (O, e)
      | None =>
          match first_rejected ds (snd (addTrainingSample d w)) with
          | Some (k, e) => Some (S k, e)
          | None => None
          end
      end
  end.

(** The backend after it received the requests, one after the other. *)
Fixpoint after_requests (reqs : list FormData) (w : W) : W :=
  match reqs with
  | [] => w
  | d :: ds => after_requests ds (snd (addTrainingSample d w))
  end.

(** The requests a save of session [s] has to issue. *)
Definition sample_requests (s : LabelingSession) : list FormData :=
  List.map (sample_form s) (annotations s).
End StoreBehaviour.

(* ------------------------------------------------------------------ *)
(** ** The session as a state machine *)

Inductive Op : Type :=
| OpLoadDefectTypes
| OpSelectMode (m : Mode)
| OpSelectClass (classId : Z)
| OpImageUpload (imagePath imageId : string)
| OpActiveLearningSelect (imagePath imageId : string) (suggestionId : Z)
| OpAddAnnotation (b : BBox)
| OpRemoveAnnotation (index : Z)
| OpSave
| OpSkip.

Section Machine.
Context {W : Type} {api : CustomDefectsAPI W}.

(** The handler behind an operation, as the render of state [r] made it. *)
Definition handler (op : Op) (r : PageState) : Eff W unit :=
  match op with
  | OpLoadDefectTypes => loadDefectTypes r
  | OpSelectMode m => selectMode m
  | OpSelectClass classId => selectClass classId
  | OpImageUpload imagePath imageId => handleImageUpload imagePath imageId
  | OpActiveLearningSelect imagePath imageId suggestionId =>
      handleActiveLearningSelect imagePath imageId suggestionId
  | OpAddAnnotation b => handleAddAnnotation r b
  | OpRemoveAnnotation index => handleRemoveAnnotation index
  | OpSave => handleSaveAnnotations r
  | OpSkip => handleSkip r
  end.

(** One user action on the page showing [p], the backend being in [w]. *)
Definition perform (op : Op) (p : PageState) (w : W) : Run W unit :=
  handler op p p w.

(** A sequence of user actions, each on the page the previous one left. *)
Fixpoint perform_all (ops : list Op) (p : PageState) (w : W) : PageState * W :=
  match ops with
  | [] => (p, w)
  | op :: rest =>
      perform_all rest (page (perform op p w)) (world (perform op p w))
  end.

(** The page states a user can bring about from the first render, whatever
    state the backend is in at each action. *)
Inductive reachable : PageState -> Prop :=
| reachable_initial : reachable initial_page
| reachable_perform (op : Op) (p : PageState) (w : W) :
    reachable p -> reachable (page (perform op p w)).

(** Switching to manual mode while a suggestion id is set. *)
Definition drops_mode_of_suggestion (op : Op) (p : PageState) : Prop :=
  op = OpSelectMode manual /\ currentSuggestionId (session p) <> None.

(** The same, without that action. *)
Inductive reachable_keeping_mode : PageState -> Prop :=
| keeping_initial : reachable_keeping_mode initial_page
| keeping_perform (op : Op) (p : PageState) (w : W) :
    reachable_keeping_mode p ->
    ~ drops_mode_of_suggestion op p ->
    reachable_keeping_mode (page (perform op p w)).
End Machine.

(** [currentSuggestionId] is set only when [mode] is [active_learning]. *)
Definition suggestion_only_in_active_learning (s : LabelingSession) : Prop :=
  forall sid, currentSuggestionId s = Some sid -> mode s = active_learning.

(* ------------------------------------------------------------------ *)
(** ** A concrete backend for examples

    A sample store that keeps the samples it accepted, in order, and rejects
    every sample of one defect type. *)

Definition form_defect_type (d : FormData) : option Z :=
  match d with
  | (_, FNumber n) :: _ => Some n
  | _ => None
  end.

Definition example_types : list CustomDefectType :=
  [ {| id := 2; name := "porosity"; color := Some "#ff0000";
       current_sample_count := 3; min_samples_required := 10 |};
    {| id := 13; name := "crack"; color := None;
       current_sample_count := 0; min_samples_required := 10 |} ].

Definition rejecting_store (bad : Z) : CustomDefectsAPI (list FormData) :=
  {| addTrainingSample d w :=
       match form_defect_type d with
       | Some n =>
           if n =? bad
           then (Some {| detail := Some "unknown defect type" |}, w)
           else (None, (w ++ [d])%list)
       | None => (Some {| detail := None |}, w)
       end;
     getCustomDefectTypes _ w := (inl example_types, w) |}.

Definition example_box : BBox := ((1 # 10), (1 # 10), (3 # 10), (3 # 10))%Q.

Definition ann_porosity : Annotation :=
  {| bbox := example_box; class_id := 2; class_name := "porosity" |}.

Definition ann_crack : Annotation :=
  {| bbox := example_box; class_id := 13; class_name := "crack" |}.

(** A page showing a suggested image with the given annotations. *)
Definition suggested_page (anns : list Annotation) : PageState :=
  {| defectTypes := example_types;
     session := {| mode := active_learning;
                   currentImagePath := Some "/img/42.png";
                   currentImageId := Some "al_42";
                   currentSuggestionId := Some 42;
                   annotations := anns |};
     selectedClassId := Some 2;
     loading := false;
     error := None;
     saving := false |}.

(** A page showing an uploaded image with the given annotations. *)
Definition uploaded_page (anns : list Annotation) : PageState :=
  {| defectTypes := example_types;
     session := {| mode := manual;
                   currentImagePath := Some "data:image/png;base64,AAAA";
                   currentImageId := Some "manual_1";
                   currentSuggestionId := None;
                   annotations := anns |};
     selectedClassId := Some 2;
     loading := false;
     error := None;
     saving := false |}.

(** The page after the defect types were loaded, an image was uploaded, the
    mode was switched to smart suggestions and one box was drawn. *)
Definition switched_page : PageState :=
  fst (perform_all (api := rejecting_store 13)
         [ OpLoadDefectTypes;
           OpImageUpload "data:image/png;base64,AAAA" "manual_1";
           OpSelectMode active_learning;
           OpAddAnnotation example_box ]
         initial_page []).

(** The actions that load the image of suggestion 42. *)
Definition take_suggestion : list Op :=
  [ OpLoadDefectTypes;
    OpSelectMode active_learning;
    OpActiveLearningSelect "/img/42.png" "al_42" 42 ].

(** A canvas on which the box [b] has just been dragged. *)
Definition canvas_with_box (b : BBox) : CanvasState :=
  {| canvasRef := Some {| cv_width := 800; cv_height := 600;
                          rect_left := 0; rect_top := 0 |};
     image := Some {| img_width := 1000; img_height := 500 |};
     scale := 72 # 100;
     offset := {| px := 0; py := 0 |};
     isDrawing := true;
     drawStart := Some {| px := fst (fst (fst b)); py := snd (fst (fst b)) |};
     currentBox := Some b;
     hoveredIndex := None |}.

(** The mouse over that canvas, five pixels into the image. *)
Definition example_move : MouseEvent :=
  {| clientX := 45; clientY := 300; ctrlKey := false; metaKey := false |}.

(* ------------------------------------------------------------------ *)
(** ** The rest of the canvas: image load, drawing, events *)

(** [setImage] of the [image] hook. *)
Definition setImage (v : option ImageEl) (c : CanvasState) : CanvasState :=
  {| canvasRef := canvasRef c; image := v; scale := scale c; offset := offset c;
     isDrawing := isDrawing c; drawStart := drawStart c;
     currentBox := currentBox c; hoveredIndex := hoveredIndex c |}.

(** The hooks of a canvas that was just mounted (lines 30-38); [cref] is
    what [canvasRef.current] holds. *)
Definition initial_canvas (cref : option CanvasEl) : CanvasState :=
  {| canvasRef := cref;
     image := None;
     scale := 1;
     offset := {| px := 0; py := 0 |};
     isDrawing := false;
     drawStart := None;
     currentBox := None;
     hoveredIndex := None |}.

(** What the load effect reads of [containerRef.current]. *)
Record ContainerEl : Type := mkContainerEl {
  clientWidth : Q;
  clientHeight : Q
}.

(** [Math.min(scaleX, scaleY, 1) * 0.9] (lines 50-52), over rationals;
    [F64.fit_scale] below has the doubles. *)
Definition fit_scale (container : ContainerEl) (img : ImageEl) : Q :=
  let scaleX := (clientWidth container / img_width img)%Q in
  let scaleY := (clientHeight container / img_height img)%Q in
  (Qmin (Qmin scaleX scaleY) 1 * (9 # 10))%Q.

(** [img.onload] (lines 44-56). *)
Definition onImageLoad (containerRef : option ContainerEl) (img : ImageEl)
    (c : CanvasState) : CanvasState :=
  match containerRef with
  | Some container =>
      setOffset {| px := 0; py := 0 |}
        (setScale (fit_scale container img) (setImage (Some img) c))
  | None => setImage (Some img) c
  end.

(** The events the canvas element and the toolbar listen to (lines 225-260);
    [onMouseLeave] runs [handleMouseUp] too. *)
Inductive CanvasEvent : Type :=
| EvMouseDown (e : MouseEvent)
| EvMouseMove (e : MouseEvent)
| EvMouseUp
| EvMouseLeave
| EvClick (e : MouseEvent)
| EvZoomIn
| EvZoomOut
| EvResetView
| EvImageLoad (containerRef : option ContainerEl) (img : ImageEl).

(** One event on a canvas that got [selected] and [anns] as props. *)
Definition canvas_step (selected : option Z) (anns : list Annotation)
    (ev : CanvasEvent) (c : CanvasState) : CanvasState * list CanvasCall :=
  match ev with
  | EvMouseDown e => handleMouseDown selected c e
  | EvMouseMove e => handleMouseMove anns c e
  | EvMouseUp => handleMouseUp c
  | EvMouseLeave => handleMouseUp c
  | EvClick e => handleCanvasClick c e
  | EvZoomIn => (handleZoomIn c, [])
  | EvZoomOut => (handleZoomOut c, [])
  | EvResetView => (handleReset c, [])
  | EvImageLoad containerRef img => (onImageLoad containerRef img c, [])
  end.

(** A sequence of events under unchanged props: the final state and all the
    calls made, in order. *)
Fixpoint canvas_steps (selected : option Z) (anns : list Annotation)
    (evs : list CanvasEvent) (c : CanvasState) : CanvasState * list CanvasCall :=
  match evs with
  | [] => (c, [])
  | ev :: rest =>
      let r1 := canvas_step selected anns ev c in
      let r2 := canvas_steps selected anns rest (fst r1) in
      (fst r2, (snd r1 ++ snd r2)%list)
  end.




(* ------------------------------------------------------------------ *)
(** ** Page and canvas together

    The canvas is mounted while an image is loaded (line 399); its events
    reach the page through the two callback props.  The page's own controls
    are the operations of [Op] except [OpAddAnnotation], which only the
    canvas triggers. *)

Section Ui.
Context {W : Type} {api : CustomDefectsAPI W}.

(** One canvas event on the page showing [p]: the new canvas state and the
    run of the page handlers the canvas called. *)
Definition canvas_event_on_page (ev : CanvasEvent) (p : PageState)
    (c : CanvasState) (w : W) : CanvasState * Run W unit :=
  let res := canvas_step (selectedClassId p) (annotations (session p)) ev c in
  (fst res, for_of (snd res) (run_call p) p w).


End Ui.

From Stdlib Require Import DecimalString.

(* ------------------------------------------------------------------ *)
(** ** Labeling statistics ([LabelingStats], in the canvas file's listing,
    lines 287-290)

    [avgProgress] divides by [min_samples_required] in floating point and
    is left out. *)

(** [defectTypes.reduce((sum, type) => sum + type.current_sample_count, 0)]. *)
Definition totalSamples (types : list CustomDefectType) : Z :=
  List.fold_left (fun sum t => sum + current_sample_count t) types 0.

Definition readyTypes (types : list CustomDefectType) : list CustomDefectType :=
  List.filter (fun t => current_sample_count t >=? min_samples_required t) types.

Definition needMoreTypes (types : list CustomDefectType) : list CustomDefectType :=
  List.filter (fun t => current_sample_count t <? min_samples_required t) types.

(* ------------------------------------------------------------------ *)
(** ** The suggestion list ([ActiveLearningSuggestions]) *)

Record Suggestion : Type := mkSuggestion {
  sg_id : Z;
  analysis_id : Z;
  uncertainty_score : Q;
  priority_score : Q;
  suggested_defect_types : list string;
  image_path : option string
}.

(** The hooks of the component. *)
Record SuggestionsState : Type := mkSuggestions {
  suggestions : list Suggestion;
  sg_loading : bool;
  sg_error : option string
}.

Definition initial_suggestions : SuggestionsState :=
  {| suggestions := []; sg_loading := true; sg_error := None |}.

(** [loadSuggestions]: the request is still to be written, the body of its
    [try] only installs the empty list, so its [catch] is never entered. *)
Definition loadSuggestions (s : SuggestionsState) : SuggestionsState :=
  let s1 := {| suggestions := suggestions s; sg_loading := true;
               sg_error := sg_error s |} in
  let s2 := {| suggestions := suggestions s1; sg_loading := sg_loading s1;
               sg_error := None |} in
  let s3 := {| suggestions := []; sg_loading := sg_loading s2;
               sg_error := sg_error s2 |} in
  {| suggestions := suggestions s3; sg_loading := false; sg_error := sg_error s3 |}.

(** A number in a template string, for integers. *)
Definition number_to_string (n : Z) : string :=
  NilZero.string_of_int (Z.to_int n).

(** The arguments of a call of the [onSelectImage] prop. *)
Definition SelectCall : Type := (string * string * Z)%type.

(** The click handler of the card of one suggestion. *)
Definition clickSuggestion (sg : Suggestion) : list SelectCall :=
  if truthy_string (image_path sg) then
    [ (match image_path sg with Some x => x | None => "" end,
       "al_" ++ number_to_string (sg_id sg),
       sg_id sg) ]
  else [].

(** A click on the [i]-th card of the rendered list; there is no card, and
    no handler, beyond the list. *)
Definition clickCard (s : SuggestionsState) (i : nat) : list SelectCall :=
  match List.nth_error (suggestions s) i with
  | Some sg => clickSuggestion sg
  | None => []
  end.

(** The states of the component: mounted, then any number of loads (the
    mount effect, Retry, Refresh). *)
Inductive suggestions_reachable : SuggestionsState -> Prop :=
| suggestions_mounted : suggestions_reachable initial_suggestions
| suggestions_loaded (s : SuggestionsState) :
    suggestions_reachable s -> suggestions_reachable (loadSuggestions s).

(** A backend that takes every sample and whose registry rejects every
    request without a detail. *)
Definition offline_registry : CustomDefectsAPI unit :=
  {| addTrainingSample _ w := (None, w);
     getCustomDefectTypes _ w := (inr {| detail := None |}, w) |}.

(** A sample store with a quota: it takes a sample while the quota is
    positive, and rejects every sample once it is used up. *)
Definition quota_store : CustomDefectsAPI nat :=
  {| addTrainingSample _ w :=
       match w with
       | O => (Some {| detail := Some "quota exceeded" |}, O)
       | S n => (None, n)
       end;
     getCustomDefectTypes _ w := (inl example_types, w) |}.

(** A Ctrl+click over the example box on the idle canvas below. *)
Definition ctrl_click : MouseEvent :=
  {| clientX := 100; clientY := 150; ctrlKey := true; metaKey := false |}.

(** A canvas showing the example image, on which nothing is being drawn. *)
Definition idle_canvas : CanvasState :=
  onImageLoad None {| img_width := 1000; img_height := 500 |}
    (initial_canvas (Some {| cv_width := 800; cv_height := 600;
                             rect_left := 0; rect_top := 0 |})).

(* ------------------------------------------------------------------ *)
(** ** The canvas in double precision

    The canvas computes with JavaScript numbers, that is IEEE 754 binary64.
    The definitions above take them as exact rationals and serve the
    properties of the canvas that rest on its control flow and on
    comparisons; where the result depends on rounding, on not-a-number or on
    the double [0.005] itself, the canvas is embedded again here, over
    Rocq's binary64 numbers, operation by operation as the source has
    them. *)

From Stdlib Require Floats.

Module F64.
Import PrimFloat SpecFloat FloatOps.
Local Open Scope float_scope.
#[local] Set Warnings "-inexact-float".

(** [Math.min(x, y)]: not-a-number when an argument is, and [-0] below
    [+0]. *)
Definition Math_min (x y : float) : float :=
  match x ?= y with
  | FLt => x
  | FGt => y
  | FEq => if get_sign x then x else y
  | FNotComparable => nan
  end.

(** [Math.max(x, y)]: not-a-number when an argument is, and [+0] above
    [-0]. *)
Definition Math_max (x y : float) : float :=
  match x ?= y with
  | FLt => y
  | FGt => x
  | FEq => if get_sign x then y else x
  | FNotComparable => nan
  end.

(** [x > y], [x >= y] and [x <= y]; all false on not-a-number. *)
Definition gt (x y : float) : bool := y <? x.
Definition ge (x y : float) : bool := y <=? x.
Definition le (x y : float) : bool := x <=? y.

(** A box of the page model: the four values as rationals. *)
Definition ValueBox : Type := BBox.

(** [bbox: [number, number, number, number]]. *)
Definition BBox : Type := (float * float * float * float)%type.

Record Annotation : Type := mkAnnotation {
  bbox : BBox;
  class_id : Z;
  class_name : string
}.

Record Point : Type := mkPoint {
  px : float;
  py : float
}.

Record ImageEl : Type := mkImageEl {
  img_width : float;
  img_height : float
}.

Record CanvasEl : Type := mkCanvasEl {
  cv_width : float;
  cv_height : float;
  rect_left : float;
  rect_top : float
}.

Record ContainerEl : Type := mkContainerEl {
  clientWidth : float;
  clientHeight : float
}.

Record MouseEvent : Type := mkMouseEvent {
  clientX : float;
  clientY : float;
  ctrlKey : bool;
  metaKey : bool
}.

(** The hooks of [ImageCanvas] (lines 30-38). *)
Record CanvasState : Type := mkCanvas {
  canvasRef : option CanvasEl;
  image : option ImageEl;
  scale : float;
  offset : Point;
  isDrawing : bool;
  drawStart : option Point;
  currentBox : option BBox;
  hoveredIndex : option Z
}.

Inductive CanvasCall : Type :=
| OnAddAnnotation (b : BBox)
| OnRemoveAnnotation (index : Z)
| CanvasAlert (msg : string).

Definition setImage (v : option ImageEl) (c : CanvasState) : CanvasState :=
  {| canvasRef := canvasRef c; image := v; scale := scale c; offset := offset c;
     isDrawing := isDrawing c; drawStart := drawStart c;
     currentBox := currentBox c; hoveredIndex := hoveredIndex c |}.

Definition setScale (v : float) (c : CanvasState) : CanvasState :=
  {| canvasRef := canvasRef c; image := image c; scale := v; offset := offset c;
     isDrawing := isDrawing c; drawStart := drawStart c;
     currentBox := currentBox c; hoveredIndex := hoveredIndex c |}.

Definition setOffset (v : Point) (c : CanvasState) : CanvasState :=
  {| canvasRef := canvasRef c; image := image c; scale := scale c; offset := v;
     isDrawing := isDrawing c; drawStart := drawStart c;
     currentBox := currentBox c; hoveredIndex := hoveredIndex c |}.

Definition setIsDrawing (v : bool) (c : CanvasState) : CanvasState :=
  {| canvasRef := canvasRef c; image := image c; scale := scale c; offset := offset c;
     isDrawing := v; drawStart := drawStart c;
     currentBox := currentBox c; hoveredIndex := hoveredIndex c |}.

Definition setDrawStart (v : option Point) (c : CanvasState) : CanvasState :=
  {| canvasRef := canvasRef c; image := image c; scale := scale c; offset := offset c;
     isDrawing := isDrawing c; drawStart := v;
     currentBox := currentBox c; hoveredIndex := hoveredIndex c |}.

Definition setCurrentBox (v : option BBox) (c : CanvasState) : CanvasState :=
  {| canvasRef := canvasRef c; image := image c; scale := scale c; offset := offset c;
     isDrawing := isDrawing c; drawStart := drawStart c;
     currentBox := v; hoveredIndex := hoveredIndex c |}.

Definition setHoveredIndex (v : option Z) (c : CanvasState) : CanvasState :=
  {| canvasRef := canvasRef c; image := image c; scale := scale c; offset := offset c;
     isDrawing := isDrawing c; drawStart := drawStart c;
     currentBox := currentBox c; hoveredIndex := v |}.

(** A canvas that was just mounted (lines 30-38). *)
Definition initial_canvas (cref : option CanvasEl) : CanvasState :=
  {| canvasRef := cref;
     image := None;
     scale := 1;
     offset := {| px := 0; py := 0 |};
     isDrawing := false;
     drawStart := None;
     currentBox := None;
     hoveredIndex := None |}.

(** [img.onload] (lines 44-56):
    [Math.min(scaleX, scaleY, 1) * 0.9]. *)
Definition fit_scale (container : ContainerEl) (img : ImageEl) : float :=
  let scaleX := clientWidth container / img_width img in
  let scaleY := clientHeight container / img_height img in
  Math_min (Math_min scaleX scaleY) 1 * 0.9.

Definition onImageLoad (containerRef : option ContainerEl) (img : ImageEl)
    (c : CanvasState) : CanvasState :=
  match containerRef with
  | Some container =>
      setOffset {| px := 0; py := 0 |}
        (setScale (fit_scale container img) (setImage (Some img) c))
  | None => setImage (Some img) c
  end.

(** [Math.max(0, Math.min(1, v))] (lines 141-142). *)
Definition clamp01 (v : float) : float := Math_max 0 (Math_min 1 v).

(** The quotients of lines 127-137, before the clamp. *)
Definition normalized (canvas : CanvasEl) (img : ImageEl) (c : CanvasState)
    (e : MouseEvent) : Point :=
  let mouseX := clientX e - rect_left canvas in
  let mouseY := clientY e - rect_top canvas in
  let scaledWidth := img_width img * scale c in
  let scaledHeight := img_height img * scale c in
  let x := (cv_width canvas - scaledWidth) / 2 + px (offset c) in
  let y := (cv_height canvas - scaledHeight) / 2 + py (offset c) in
  {| px := (mouseX - x) / scaledWidth; py := (mouseY - y) / scaledHeight |}.

(** Lines 122-144. *)
Definition getCanvasCoordinates (c : CanvasState) (e : MouseEvent) : option Point :=
  match canvasRef c, image c with
  | Some canvas, Some img =>
      let n := normalized canvas img c e in
      Some {| px := clamp01 (px n); py := clamp01 (py n) |}
  | _, _ => None
  end.

(** Lines 146-158. *)
Definition handleMouseDown (selected : option Z) (c : CanvasState) (e : MouseEvent)
  : CanvasState * list CanvasCall :=
  if negb (truthy_number selected) then
    (c, [CanvasAlert "Please select a defect class first"])
  else
    match getCanvasCoordinates c e with
    | None => (c, [])
    | Some coords =>
        (setCurrentBox (Some (px coords, py coords, px coords, py coords))
           (setDrawStart (Some coords) (setIsDrawing true c)),
         [])
    end.

(** Lines 166-171. *)
Definition drag_box (start coords : Point) : BBox :=
  (Math_min (px start) (px coords), Math_min (py start) (py coords),
   Math_max (px start) (px coords), Math_max (py start) (py coords)).

(** Lines 174-177. *)
Definition inside (coords : Point) (ann : Annotation) : bool :=
  let '(x1, y1, x2, y2) := bbox ann in
  ge (px coords) x1 && le (px coords) x2
  && ge (py coords) y1 && le (py coords) y2.

(** Lines 160-179. *)
Definition handleMouseMove (anns : list Annotation) (c : CanvasState)
    (e : MouseEvent) : CanvasState * list CanvasCall :=
  match isDrawing c, drawStart c with
  | true, Some start =>
      match getCanvasCoordinates c e with
      | None => (c, [])
      | Some coords =>
          let hoveredIdx := findIndex (inside coords) anns in
          (setHoveredIndex (if (hoveredIdx >=? 0)%Z then Some hoveredIdx else None)
             (setCurrentBox (Some (drag_box start coords)) c),
           [])
      end
  | _, _ => (c, [])
  end.

(** [x2 - x1] and [y2 - y1], as lines 188-189 compute them. *)
Definition box_width (b : BBox) : float :=
  let '(x1, _, x2, _) := b in x2 - x1.

Definition box_height (b : BBox) : float :=
  let '(_, y1, _, y2) := b in y2 - y1.

(** The double the literal [0.005] of line 192 denotes. *)
Definition min_box_size : float := 0.005.

(** Lines 181-199. *)
Definition handleMouseUp (c : CanvasState) : CanvasState * list CanvasCall :=
  match isDrawing c, currentBox c with
  | true, Some box =>
      let width := box_width box in
      let height := box_height box in
      (setCurrentBox None (setDrawStart None (setIsDrawing false c)),
       if gt width min_box_size && gt height min_box_size
       then [OnAddAnnotation box]
       else [])
  | _, _ => (setIsDrawing false c, [])
  end.

(** The value of a finite double as a rational number; the page model
    above keeps a box by the values of its four doubles. *)
Definition double_value (x : float) : Q :=
  match Prim2SF x with
  | S754_finite s m e =>
      let v := (inject_Z (Zpos m) * Qpower 2 e)%Q in
      if s then Qopp v else v
  | _ => 0%Q
  end.

Definition box_value (b : BBox) : ValueBox :=
  let '(x1, y1, x2, y2) := b in
  (double_value x1, double_value y1, double_value x2, double_value y2).

Definition finite_box (b : BBox) : bool :=
  let '(x1, y1, x2, y2) := b in
  is_finite x1 && is_finite y1 && is_finite x2 && is_finite y2.

(** The canvas mounted in the page (lines 399-408), as [run_call] and
    [mouseUp_on_page] above. *)
Definition run_call {W : Type} (r : PageState) (call : CanvasCall) : Eff W unit :=
  match call with
  | OnAddAnnotation b => handleAddAnnotation r (box_value b)
  | OnRemoveAnnotation index => handleRemoveAnnotation index
  | CanvasAlert msg => alert msg
  end.

Definition mouseUp_on_page {W : Type} (r : PageState) (c : CanvasState)
  : CanvasState * Eff W unit :=
  let res := handleMouseUp c in
  (fst res, for_of (snd res) (run_call r)).





(** *** Example canvases *)

Definition example_canvas_el : CanvasEl :=
  {| cv_width := 800; cv_height := 600; rect_left := 0; rect_top := 0 |}.

Definition example_image : ImageEl :=
  {| img_width := 1000; img_height := 500 |}.

(** The example image loaded at scale 1, nothing being drawn. *)
Definition idle_canvas : CanvasState :=
  onImageLoad None example_image (initial_canvas (Some example_canvas_el)).



(** A canvas on which the box [b] is being dragged. *)
Definition canvas_with_box (b : BBox) : CanvasState :=
  let '(x1, y1, _, _) := b in
  setCurrentBox (Some b)
    (setDrawStart (Some {| px := x1; py := y1 |}) (setIsDrawing true idle_canvas)).

(** The box a drag from (200, 100) to (205, 200) spans on [idle_canvas]. *)
Definition narrow_box : BBox := (0.3, 0.1, 0.305, 0.3).

(** A box whose corners are the doubles [0] and [0.005]. *)
Definition edge_box : BBox := (0, 0, 0.005, 0.005).

Definition tiny_box : BBox := (0, 0, 0.001, 0.001).
End F64.

(** A registry in which a defect type has the id 0. *)
Definition types_with_zero : list CustomDefectType :=
  [ {| id := 0; name := "lack of fusion"; color := None;
       current_sample_count := 0; min_samples_required := 10 |};
    {| id := 2; name := "porosity"; color := Some "#ff0000";
       current_sample_count := 3; min_samples_required := 10 |} ].

(* ================================================================== *)
(** * Properties *)

(* ------------------------------------------------------------------ *)
(** ** Geometry of the canvas *)



(* ------------------------------------------------------------------ *)
(** ** Removing an annotation *)

Lemma filter_index_from_all {A : Type} (index base : Z) (l : list A) :
  index < base ->
  filter_index_from (fun _ i => negb (i =? index)) base l = l.
Proof.
  revert base. induction l as [|a l IH]; intros base Hlt; simpl.
  - reflexivity.
  - destruct (Z.eqb_spec base index) as [->|_]; [lia|].
    simpl. f_equal. apply IH. lia.
Qed.

Lemma filter_index_from_beyond {A : Type} (index base : Z) (l : list A) :
  base + Z.of_nat (List.length l) <= index ->
  filter_index_from (fun _ i => negb (i =? index)) base l = l.
Proof.
  revert base. induction l as [|a l IH]; intros base Hge; simpl in *.
  - reflexivity.
  - destruct (Z.eqb_spec base index) as [->|_]; [lia|].
    simpl. f_equal. apply IH. lia.
Qed.

Lemma filter_index_from_at {A : Type} (n : nat) (base : Z) (l : list A) :
  (n < List.length l)%nat ->
  filter_index_from (fun _ i => negb (i =? base + Z.of_nat n)) base l
  = (firstn n l ++ skipn (S n) l)%list.
Proof.
  revert n base. induction l as [|a l IH]; intros n base Hn; simpl in Hn.
  - lia.
  - destruct n as [|n].
    + simpl. rewrite Z.add_0_r, Z.eqb_refl. simpl.
      apply filter_index_from_all. lia.
    + cbn [filter_index_from firstn skipn app].
      destruct (Z.eqb_spec base (base + Z.of_nat (S n))) as [E|_]; [lia|].
      cbn [negb]. f_equal.
      replace (base + Z.of_nat (S n)) with ((base + 1) + Z.of_nat n) by lia.
      apply IH. lia.
Qed.

Lemma page_eta (p : PageState) :
  setSession (with_annotations (annotations (session p)) (session p)) p = p.
Proof. destruct p as [dt [m ip ii si an] sc ld er sv]. reflexivity. Qed.

(** C8. [handleRemoveAnnotation index] calls nothing and touches only the
    annotation list.  For an index inside the list the new list is the old
    one without the entry at that position, the entries before and after it
    in their old order, one entry shorter; for any other index, negative
    ones included, the page state is unchanged. *)
Theorem removeAnnotation_removes_that_position
    {W : Type} (index : Z) (p : PageState) (w : W) :
  let anns := annotations (session p) in
  let r := handleRemoveAnnotation index p w in
  (0 <= index < Z.of_nat (List.length anns) ->
     annotations (session (page r))
     = (firstn (Z.to_nat index) anns ++ skipn (S (Z.to_nat index)) anns)%list
     /\ S (List.length (annotations (session (page r)))) = List.length anns)
  /\ (~ (0 <= index < Z.of_nat (List.length anns)) -> page r = p)
  /\ outcome r = inl tt /\ world r = w /\ trace r = []
  /\ with_annotations anns (session (page r)) = session p.
Proof.
  cbv zeta. unfold handleRemoveAnnotation, update, filter_index. cbn [page outcome world trace].
  split; [|split; [|repeat split]].
  - intros Hin.
    assert (E : filter_index_from (fun (_ : Annotation) i => negb (i =? index)) 0
                  (annotations (session p))
                = (firstn (Z.to_nat index) (annotations (session p))
                   ++ skipn (S (Z.to_nat index)) (annotations (session p)))%list).
    { rewrite <- (filter_index_from_at (Z.to_nat index) 0) by lia.
      rewrite Z.add_0_l, Z2Nat.id by lia. reflexivity. }
    cbn [setSession session with_annotations annotations]. rewrite E. split.
    + reflexivity.
    + rewrite length_app, length_firstn, length_skipn. lia.
  - intros Hout.
    assert (E : filter_index_from (fun (_ : Annotation) i => negb (i =? index)) 0
                  (annotations (session p)) = annotations (session p)).
    { destruct (Z.lt_ge_cases index 0) as [Hneg|Hpos].
      - apply filter_index_from_all. exact Hneg.
      - apply filter_index_from_beyond. lia. }
    rewrite E. apply page_eta.
  - destruct p as [dt [m ip ii si an] sc ld er sv]. reflexivity.
Qed.

Lemma removeAnnotation_removes_that_position_witness :
  annotations
    (session (page (handleRemoveAnnotation (W := list FormData) 1
                      (uploaded_page [ann_porosity; ann_crack; ann_porosity]) [])))
  = [ann_porosity; ann_porosity]
  /\ page (handleRemoveAnnotation (W := list FormData) (-1)
             (uploaded_page [ann_porosity; ann_crack]) [])
     = uploaded_page [ann_porosity; ann_crack]
  /\ page (handleRemoveAnnotation (W := list FormData) 2
             (uploaded_page [ann_porosity; ann_crack]) [])
     = uploaded_page [ann_porosity; ann_crack].
Proof.
  split; [|split].
  - apply (proj1 (removeAnnotation_removes_that_position (W := list FormData) 1
                    (uploaded_page [ann_porosity; ann_crack; ann_porosity]) [])).
    simpl. lia.
  - apply (proj1 (proj2 (removeAnnotation_removes_that_position
                           (W := list FormData) (-1)
                           (uploaded_page [ann_porosity; ann_crack]) []))).
    simpl. lia.
  - apply (proj1 (proj2 (removeAnnotation_removes_that_position
                           (W := list FormData) 2
                           (uploaded_page [ann_porosity; ann_crack]) []))).
    simpl. lia.
Defined.

(* ------------------------------------------------------------------ *)
(** ** Running computations *)

Section RunLemmas.
Context {W : Type}.

Lemma bind_returns {A B : Type} (m : Eff W A) (f : A -> Eff W B)
    (p p' : PageState) (w w' : W) (a : A) (t : list Event) :
  m p w = mkRun (inl a) p' w' t ->
  bind m f p w
  = mkRun (outcome (f a p' w')) (page (f a p' w')) (world (f a p' w'))
          (t ++ trace (f a p' w')).
Proof. intros H. unfold bind. rewrite H. reflexivity. Qed.

Lemma bind_throws {A B : Type} (m : Eff W A) (f : A -> Eff W B)
    (p p' : PageState) (w w' : W) (e : ApiError) (t : list Event) :
  m p w = mkRun (inr e) p' w' t ->
  bind m f p w = mkRun (inr e) p' w' t.
Proof. intros H. unfold bind. rewrite H. reflexivity. Qed.

Lemma try_catch_returns {A : Type} (m : Eff W A) (h : ApiError -> Eff W A)
    (p p' : PageState) (w w' : W) (a : A) (t : list Event) :
  m p w = mkRun (inl a) p' w' t ->
  try_catch m h p w = mkRun (inl a) p' w' t.
Proof. intros H. unfold try_catch. rewrite H. reflexivity. Qed.

Lemma try_catch_throws {A : Type} (m : Eff W A) (h : ApiError -> Eff W A)
    (p p' : PageState) (w w' : W) (e : ApiError) (t : list Event) :
  m p w = mkRun (inr e) p' w' t ->
  try_catch m h p w
  = mkRun (outcome (h e p' w')) (page (h e p' w')) (world (h e p' w'))
          (t ++ trace (h e p' w')).
Proof. intros H. unfold try_catch. rewrite H. reflexivity. Qed.

Lemma finally_update {A : Type} (m : Eff W A) (g : PageState -> PageState)
    (p p' : PageState) (w w' : W) (o : A + ApiError) (t : list Event) :
  m p w = mkRun o p' w' t ->
  finally m (update g) p w = mkRun o (g p') w' t.
Proof.
  intros H. unfold finally, update. rewrite H. cbn [outcome page world trace].
  rewrite app_nil_r. reflexivity.
Qed.

Lemma when_skip (b : bool) (p : PageState) (w : W) :
  when b (ret tt) p w = mkRun (inl tt) p w [].
Proof. destruct b; reflexivity. Qed.
End RunLemmas.

Section SaveLemmas.
Context {W : Type} {api : CustomDefectsAPI W}.

Lemma await_addTrainingSample_resolved (d : FormData) (p : PageState) (w : W) :
  fst (addTrainingSample d w) = None ->
  await_addTrainingSample d p w
  = mkRun (inl tt) p (snd (addTrainingSample d w)) [CallAddTrainingSample d].
Proof. intros H. unfold await_addTrainingSample. rewrite H. reflexivity. Qed.

Lemma await_addTrainingSample_rejected (d : FormData) (p : PageState) (w : W)
    (e : ApiError) :
  fst (addTrainingSample d w) = Some e ->
  await_addTrainingSample d p w
  = mkRun (inr e) p (snd (addTrainingSample d w)) [CallAddTrainingSample d].
Proof. intros H. unfold await_addTrainingSample. rewrite H. reflexivity. Qed.

(** The loop of [handleSaveAnnotations] when no request is rejected. *)
Lemma for_of_commits_resolve (f : Annotation -> FormData) (anns : list Annotation)
    (p : PageState) (w : W) :
  first_rejected (List.map f anns) w = None ->
  for_of anns (fun a => await_addTrainingSample (f a)) p w
  = mkRun (inl tt) p (after_requests (List.map f anns) w)
          (List.map CallAddTrainingSample (List.map f anns)).
Proof.
  revert w. induction anns as [|a anns IH]; intros w Hok.
  - reflexivity.
  - cbn [List.map first_rejected after_requests for_of] in *.
    destruct (fst (addTrainingSample (f a) w)) as [e|] eqn:Hfst; [discriminate|].
    destruct (first_rejected (List.map f anns) (snd (addTrainingSample (f a) w)))
      as [[k e]|] eqn:Hrest; [discriminate|].
    rewrite (bind_returns _ _ _ _ _ _ _ _ (await_addTrainingSample_resolved _ p _ Hfst)).
    rewrite (IH _ Hrest). reflexivity.
Qed.

(** The loop when the request at position [k] is the first rejected one. *)
Lemma for_of_commits_reject (f : Annotation -> FormData) (anns : list Annotation)
    (p : PageState) (w : W) (k : nat) (e : ApiError) :
  first_rejected (List.map f anns) w = Some (k, e) ->
  for_of anns (fun a => await_addTrainingSample (f a)) p w
  = mkRun (inr e) p (after_requests (firstn (S k) (List.map f anns)) w)
          (List.map CallAddTrainingSample (firstn (S k) (List.map f anns))).
Proof.
  revert w k. induction anns as [|a anns IH]; intros w k Hrej.
  - discriminate.
  - cbn [List.map first_rejected for_of] in *.
    destruct (fst (addTrainingSample (f a) w)) as [e0|] eqn:Hfst.
    + injection Hrej as <- <-.
      rewrite (bind_throws _ _ _ _ _ _ _ _ (await_addTrainingSample_rejected _ p _ _ Hfst)).
      reflexivity.
    + destruct (first_rejected (List.map f anns) (snd (addTrainingSample (f a) w)))
        as [[k' e']|] eqn:Hrest; [|discriminate].
      injection Hrej as <- <-.
      rewrite (bind_returns _ _ _ _ _ _ _ _ (await_addTrainingSample_resolved _ p _ Hfst)).
      rewrite (IH _ _ Hrest). reflexivity.
Qed.

Lemma first_rejected_position (reqs : list FormData) (w : W) (k : nat) (e : ApiError) :
  first_rejected reqs w = Some (k, e) -> (k < List.length reqs)%nat.
Proof.
  revert w k e. induction reqs as [|d ds IH]; intros w k e H; cbn in H.
  - discriminate.
  - destruct (fst (addTrainingSample d w)).
    + injection H as <- _. cbn. lia.
    + destruct (first_rejected ds (snd (addTrainingSample d w))) as [[k' e']|] eqn:Hrest;
        [|discriminate].
      injection H as <- _. apply IH in Hrest. cbn. lia.
Qed.

Lemma await_getCustomDefectTypes_resolved (activeOnly : bool) (p : PageState)
    (w : W) (types : list CustomDefectType) :
  fst (getCustomDefectTypes activeOnly w) = inl types ->
  await_getCustomDefectTypes activeOnly p w
  = mkRun (inl types) p (snd (getCustomDefectTypes activeOnly w))
          [CallGetCustomDefectTypes activeOnly].
Proof. intros H. unfold await_getCustomDefectTypes. rewrite H. reflexivity. Qed.

Lemma await_getCustomDefectTypes_rejected (activeOnly : bool) (p : PageState)
    (w : W) (e : ApiError) :
  fst (getCustomDefectTypes activeOnly w) = inr e ->
  await_getCustomDefectTypes activeOnly p w
  = mkRun (inr e) p (snd (getCustomDefectTypes activeOnly w))
          [CallGetCustomDefectTypes activeOnly].
Proof. intros H. unfold await_getCustomDefectTypes. rewrite H. reflexivity. Qed.

(** [loadDefectTypes] when the registry answers. *)
Lemma loadDefectTypes_resolved (r p : PageState) (w : W)
    (types : list CustomDefectType) :
  fst (getCustomDefectTypes true w) = inl types ->
  let loaded := setDefectTypes types (setError None (setLoading true p)) in
  loadDefectTypes r p w
  = mkRun (inl tt)
          (setLoading false
             (match types with
              | t0 :: _ =>
                  if negb (truthy_number (selectedClassId r))
                  then setSelectedClassId (Some (id t0)) loaded
                  else loaded
              | [] => loaded
              end))
          (snd (getCustomDefectTypes true w))
          [CallGetCustomDefectTypes true].
Proof.
  intros Hget loaded. unfold loadDefectTypes.
  apply finally_update. apply try_catch_returns.
  erewrite bind_returns by reflexivity. cbv beta.
  erewrite bind_returns by reflexivity. cbv beta.
  erewrite bind_returns by (apply await_getCustomDefectTypes_resolved; exact Hget).
  cbv beta.
  erewrite bind_returns by reflexivity. cbv beta.
  destruct types as [|t0 types];
    [|destruct (negb (truthy_number (selectedClassId r)))]; reflexivity.
Qed.

(** [loadDefectTypes] when the registry request is rejected. *)
Lemma loadDefectTypes_rejected (r p : PageState) (w : W) (err : ApiError) :
  fst (getCustomDefectTypes true w) = inr err ->
  loadDefectTypes r p w
  = mkRun (inl tt)
          (setLoading false
             (setError (Some (or_else (detail err) "Failed to load defect types"))
                (setError None (setLoading true p))))
          (snd (getCustomDefectTypes true w))
          [ CallGetCustomDefectTypes true;
            ConsoleError "Failed to load defect types:" err ].
Proof.
  intros Hget. unfold loadDefectTypes.
  apply finally_update.
  erewrite try_catch_throws.
  2:{ erewrite bind_returns by reflexivity. cbv beta.
      erewrite bind_returns by reflexivity. cbv beta.
      erewrite bind_throws by (apply await_getCustomDefectTypes_rejected; exact Hget).
      reflexivity. }
  reflexivity.
Qed.

(** [loadDefectTypes] never throws, and leaves the session, the saving
    flag and the sample store alone. *)
Lemma loadDefectTypes_frame (r p : PageState) (w : W) :
  outcome (loadDefectTypes r p w) = inl tt
  /\ session (page (loadDefectTypes r p w)) = session p
  /\ saving (page (loadDefectTypes r p w)) = saving p
  /\ sample_commits (trace (loadDefectTypes r p w)) = [].
Proof.
  destruct (fst (getCustomDefectTypes true w)) as [types|err] eqn:Hget.
  - rewrite (loadDefectTypes_resolved r p w types Hget). cbv zeta.
    destruct types as [|t0 types];
      [|destruct (negb (truthy_number (selectedClassId r)))];
      repeat split.
  - rewrite (loadDefectTypes_rejected r p w err Hget). repeat split.
Qed.

Lemma save_guard_passes (s : LabelingSession) :
  image_loaded s = true ->
  annotations s <> [] ->
  negb (truthy_string (currentImagePath s))
  || Nat.eqb (List.length (annotations s)) 0 = false.
Proof.
  unfold image_loaded. intros -> Hne.
  destruct (annotations s); [congruence|reflexivity].
Qed.


(** A save all of whose requests resolve. *)
Lemma save_resolved (r : PageState) (w : W) :
  image_loaded (session r) = true ->
  annotations (session r) <> [] ->
  first_rejected (sample_requests (session r)) w = None ->
  let l := loadDefectTypes r (setSession empty_session (setSaving true r))
             (after_requests (sample_requests (session r)) w) in
  handleSaveAnnotations r r w
  = mkRun (inl tt) (setSaving false (page l)) (world l)
          (List.map CallAddTrainingSample (sample_requests (session r))
           ++ AlertSaved (List.length (annotations (session r))) :: trace l).
Proof.
  intros Himg Hne Hok l. unfold handleSaveAnnotations.
  rewrite (save_guard_passes _ Himg Hne).
  apply finally_update. apply try_catch_returns.
  erewrite bind_returns by reflexivity. cbv beta.
  erewrite bind_returns by (apply for_of_commits_resolve; exact Hok). cbv beta.
  erewrite bind_returns by apply when_skip. cbv beta.
  erewrite bind_returns by reflexivity. cbv beta.
  erewrite bind_returns by reflexivity. cbv beta.
  cbn [outcome page world trace app].
  destruct (loadDefectTypes_frame r (setSession empty_session (setSaving true r))
             (after_requests (sample_requests (session r)) w)) as [Hout _].
  subst l. unfold sample_requests in *. rewrite Hout. reflexivity.
Qed.

(** A save whose request at position [k] is the first rejected one. *)
Lemma save_rejected (r : PageState) (w : W) (k : nat) (e : ApiError) :
  image_loaded (session r) = true ->
  annotations (session r) <> [] ->
  first_rejected (sample_requests (session r)) w = Some (k, e) ->
  handleSaveAnnotations r r w
  = mkRun (inl tt) (setSaving false (setSaving true r))
          (after_requests (firstn (S k) (sample_requests (session r))) w)
          (List.map CallAddTrainingSample (firstn (S k) (sample_requests (session r)))
           ++ [ ConsoleError "Failed to save annotations:" e;
                Alert (or_else (detail e) "Failed to save annotations") ]).
Proof.
  intros Himg Hne Hrej. unfold handleSaveAnnotations.
  rewrite (save_guard_passes _ Himg Hne).
  apply finally_update.
  erewrite try_catch_throws.
  2:{ erewrite bind_returns by reflexivity. cbv beta.
      erewrite bind_throws by (apply for_of_commits_reject; exact Hrej).
      reflexivity. }
  reflexivity.
Qed.

(** A save that does not pass its guard. *)
Lemma save_refused (r p : PageState) (w : W) :
  image_loaded (session r) = false \/ annotations (session r) = [] ->
  handleSaveAnnotations r p w
  = mkRun (inl tt) p w [Alert "Please add at least one annotation"].
Proof.
  intros H. unfold handleSaveAnnotations, image_loaded in *.
  destruct H as [-> | ->]; [reflexivity|].
  cbn [List.length Nat.eqb]. rewrite orb_true_r. reflexivity.
Qed.
End SaveLemmas.

(* ------------------------------------------------------------------ *)
(** ** Saving *)

Lemma calls_of_requests (ds : list FormData) :
  sample_commits (List.map CallAddTrainingSample ds)
  = List.map CallAddTrainingSample ds
  /\ backend_calls (List.map CallAddTrainingSample ds)
     = List.map CallAddTrainingSample ds.
Proof.
  unfold sample_commits, backend_calls.
  induction ds as [|d ds [IH1 IH2]]; [split; reflexivity|].
  cbn [List.map List.filter is_sample_commit is_backend_call].
  rewrite IH1, IH2. split; reflexivity.
Qed.

(** C6. On a session without annotations [handleSaveAnnotations] only shows
    the alert asking for an annotation (the report of the empty annotation
    set): it sends nothing to the sample store or to any other backend
    method, and leaves the page state, the session with it, as it was. *)
Theorem save_without_annotations_is_refused
    {W : Type} {api : CustomDefectsAPI W} (r : PageState) (w : W) :
  annotations (session r) = [] ->
  let run := handleSaveAnnotations r r w in
  trace run = [Alert "Please add at least one annotation"]
  /\ sample_commits (trace run) = []
  /\ backend_calls (trace run) = []
  /\ page run = r
  /\ world run = w.
Proof.
  intros Hnone. cbv zeta.
  rewrite (save_refused r r w (or_intror Hnone)).
  repeat split.
Qed.

Lemma save_without_annotations_is_refused_witness :
  let run := handleSaveAnnotations (api := rejecting_store 13)
               (uploaded_page []) (uploaded_page []) [] in
  trace run = [Alert "Please add at least one annotation"]
  /\ sample_commits (trace run) = []
  /\ backend_calls (trace run) = []
  /\ page run = uploaded_page []
  /\ world run = [].
Proof.
  apply (save_without_annotations_is_refused (api := rejecting_store 13)
           (uploaded_page []) []).
  reflexivity.
Defined.

(** C1 (as the code has it). A save of a session with an image and at least
    one annotation, all of whose requests the sample store accepts, issues
    one request per annotation, in order, and leaves the session equal to
    the initial one: no image path, no image id, no suggestion id, no
    annotations, and mode [manual].  The mode is therefore the one before
    the save exactly when that was [manual]. *)
Theorem successful_save_resets_session_to_initial
    {W : Type} {api : CustomDefectsAPI W} (r : PageState) (w : W) :
  image_loaded (session r) = true ->
  annotations (session r) <> [] ->
  first_rejected (sample_requests (session r)) w = None ->
  let run := handleSaveAnnotations r r w in
  session (page run) = empty_session
  /\ currentImagePath (session (page run)) = None
  /\ currentImageId (session (page run)) = None
  /\ annotations (session (page run)) = []
  /\ mode (session (page run)) = manual
  /\ (mode (session (page run)) = mode (session r) <-> mode (session r) = manual)
  /\ saving (page run) = false
  /\ sample_commits (trace run)
     = List.map CallAddTrainingSample (sample_requests (session r)).
Proof.
  intros Himg Hne Hok. cbv zeta.
  pose proof (save_resolved r w Himg Hne Hok) as Hrun. cbv zeta in Hrun.
  destruct (loadDefectTypes_frame r (setSession empty_session (setSaving true r))
              (after_requests (sample_requests (session r)) w))
    as (_ & Hsession & _ & Hcommits).
  rewrite Hrun. cbn [page trace].
  assert (Hreset : session
                     (setSaving false
                        (page (loadDefectTypes r
                                 (setSession empty_session (setSaving true r))
                                 (after_requests (sample_requests (session r)) w))))
                   = empty_session).
  { cbn [setSaving session]. rewrite Hsession. reflexivity. }
  rewrite Hreset. cbn [empty_session currentImagePath currentImageId annotations mode].
  repeat split; try congruence.
  unfold sample_commits in *. rewrite filter_app. cbn [List.filter is_sample_commit].
  rewrite Hcommits, app_nil_r.
  apply (proj1 (calls_of_requests _)).
Qed.

Lemma successful_save_resets_session_to_initial_witness :
  let run := handleSaveAnnotations (api := rejecting_store 13)
               (uploaded_page [ann_porosity]) (uploaded_page [ann_porosity]) [] in
  session (page run) = empty_session
  /\ currentImagePath (session (page run)) = None
  /\ currentImageId (session (page run)) = None
  /\ annotations (session (page run)) = []
  /\ mode (session (page run)) = manual
  /\ (mode (session (page run)) = mode (session (uploaded_page [ann_porosity]))
      <-> mode (session (uploaded_page [ann_porosity])) = manual)
  /\ saving (page run) = false
  /\ sample_commits (trace run)
     = List.map CallAddTrainingSample
         (sample_requests (session (uploaded_page [ann_porosity]))).
Proof.
  apply (successful_save_resets_session_to_initial (api := rejecting_store 13)
           (uploaded_page [ann_porosity]) []).
  - reflexivity.
  - discriminate.
  - reflexivity.
Defined.

(** C1 as stated fails: a successful save of a session in mode
    [active_learning] leaves the mode [manual]. *)
Lemma successful_save_changes_active_learning_mode :
  let before := switched_page in
  let run := handleSaveAnnotations (api := rejecting_store 13) before before [] in
  image_loaded (session before) = true
  /\ annotations (session before) = [ann_porosity]
  /\ first_rejected (api := rejecting_store 13) (sample_requests (session before)) [] = None
  /\ mode (session before) = active_learning
  /\ mode (session (page run)) = manual
  /\ mode (session (page run)) <> mode (session before).
Proof.
  cbv zeta. repeat split; try reflexivity. discriminate.
Qed.

(** C7. When the sample store rejects one of the requests of a save, the
    session after the save is the session before it: the image is still
    loaded and the annotation list is the same.  Apart from the saving flag,
    which is down again, the page state is unchanged, and the handler ends
    without throwing. *)
Theorem failed_save_leaves_session_intact
    {W : Type} {api : CustomDefectsAPI W}
    (r : PageState) (w : W) (k : nat) (e : ApiError) :
  image_loaded (session r) = true ->
  annotations (session r) <> [] ->
  first_rejected (sample_requests (session r)) w = Some (k, e) ->
  let run := handleSaveAnnotations r r w in
  session (page run) = session r
  /\ image_loaded (session (page run)) = true
  /\ annotations (session (page run)) = annotations (session r)
  /\ page run = setSaving false r
  /\ outcome run = inl tt.
Proof.
  intros Himg Hne Hrej. cbv zeta.
  rewrite (save_rejected r w k e Himg Hne Hrej). cbn [page outcome].
  repeat split; try assumption.
Qed.

Lemma failed_save_leaves_session_intact_witness :
  let before := uploaded_page [ann_porosity; ann_crack; ann_porosity] in
  let run := handleSaveAnnotations (api := rejecting_store 13) before before [] in
  session (page run) = session before
  /\ image_loaded (session (page run)) = true
  /\ annotations (session (page run)) = annotations (session before)
  /\ page run = setSaving false before
  /\ outcome run = inl tt.
Proof.
  apply (failed_save_leaves_session_intact (api := rejecting_store 13)
           (uploaded_page [ann_porosity; ann_crack; ann_porosity]) [] 1
           {| detail := Some "unknown defect type" |}).
  - reflexivity.
  - discriminate.
  - reflexivity.
Defined.

(** C4 (as the code has it). When the request at position [k] is the first
    one the sample store rejects, a save issues the requests of the
    annotations at positions [0] to [k], in order, and no request for a
    later annotation; it then logs the error and alerts its detail, or
    [Failed to save annotations] when there is none.  It sends nothing else
    to the backend, so the store is left as the issued requests made it:
    what the accepted ones wrote stays written. *)
Theorem failed_save_stops_at_first_rejection
    {W : Type} {api : CustomDefectsAPI W}
    (r : PageState) (w : W) (k : nat) (e : ApiError) :
  image_loaded (session r) = true ->
  annotations (session r) <> [] ->
  first_rejected (sample_requests (session r)) w = Some (k, e) ->
  let run := handleSaveAnnotations r r w in
  let issued := firstn (S k) (sample_requests (session r)) in
  (k < List.length (annotations (session r)))%nat
  /\ trace run
     = (List.map CallAddTrainingSample issued
        ++ [ ConsoleError "Failed to save annotations:" e;
             Alert (or_else (detail e) "Failed to save annotations") ])%list
  /\ backend_calls (trace run) = List.map CallAddTrainingSample issued
  /\ List.length (sample_commits (trace run)) = S k
  /\ world run = after_requests issued w.
Proof.
  intros Himg Hne Hrej. cbv zeta.
  pose proof (first_rejected_position _ _ _ _ Hrej) as Hk.
  unfold sample_requests in Hk. rewrite length_map in Hk.
  rewrite (save_rejected r w k e Himg Hne Hrej). cbn [trace world].
  pose proof (calls_of_requests (firstn (S k) (sample_requests (session r))))
    as [Hcommits Hcalls].
  unfold backend_calls, sample_commits in *.
  rewrite !filter_app. cbn [List.filter is_backend_call is_sample_commit].
  rewrite Hcommits, Hcalls, !app_nil_r.
  repeat split; try assumption.
  rewrite length_map, length_firstn.
  unfold sample_requests. rewrite length_map. lia.
Qed.

Lemma failed_save_stops_at_first_rejection_witness :
  let before := uploaded_page [ann_porosity; ann_crack; ann_porosity] in
  let run := handleSaveAnnotations (api := rejecting_store 13) before before [] in
  let issued := firstn 2 (sample_requests (session before)) in
  (1 < List.length (annotations (session before)))%nat
  /\ trace run
     = (List.map CallAddTrainingSample issued
        ++ [ ConsoleError "Failed to save annotations:"
               {| detail := Some "unknown defect type" |};
             Alert (or_else (Some "unknown defect type")
                            "Failed to save annotations") ])%list
  /\ backend_calls (trace run) = List.map CallAddTrainingSample issued
  /\ List.length (sample_commits (trace run)) = 2%nat
  /\ world run = after_requests (api := rejecting_store 13) issued [].
Proof.
  apply (failed_save_stops_at_first_rejection (api := rejecting_store 13)
           (uploaded_page [ann_porosity; ann_crack; ann_porosity]) [] 1
           {| detail := Some "unknown defect type" |}).
  - reflexivity.
  - discriminate.
  - reflexivity.
Defined.

(** C4 as stated fails: of three annotations whose second the store
    rejects, the third is never sent. *)
Lemma failed_save_skips_later_annotations :
  let before := uploaded_page [ann_porosity; ann_crack; ann_porosity] in
  let run := handleSaveAnnotations (api := rejecting_store 13) before before [] in
  List.length (annotations (session before)) = 3%nat
  /\ List.length (sample_commits (trace run)) = 2%nat
  /\ world run = [sample_form (session before) ann_porosity].
Proof.
  cbv zeta. repeat split.
Qed.

(* ------------------------------------------------------------------ *)
(** ** Skipping *)

Lemma skip_session_reset {W : Type} (r p : PageState) (w : W) :
  handleSkip r p w = mkRun (inl tt) (setSession empty_session p) w []
  /\ session (page (handleSkip r p w)) = empty_session.
Proof.
  assert (E : handleSkip r p w = mkRun (inl tt) (setSession empty_session p) w []).
  { unfold handleSkip. erewrite bind_returns by apply when_skip. reflexivity. }
  rewrite E. split; reflexivity.
Qed.

(** C3 (as the code has it). [handleSkip] installs the initial session
    whatever the mode, the suggestion id and the annotations were, and does
    nothing else: it calls no backend method, so no notification can fail,
    and it shows nothing. *)
Theorem skip_resets_session_and_calls_nothing
    {W : Type} (r p : PageState) (w : W) :
  handleSkip r p w = mkRun (inl tt) (setSession empty_session p) w []
  /\ session (page (handleSkip r p w)) = empty_session
  /\ backend_calls (trace (handleSkip r p w)) = [].
Proof.
  destruct (skip_session_reset r p w) as [E _].
  rewrite E. repeat split.
Qed.

(** C3 as stated fails: skipping the image of suggestion 42 in mode
    [active_learning] sends nothing to the backend, so the suggestion is
    not marked as skipped. *)
Lemma skip_of_suggestion_notifies_nobody :
  let before := suggested_page [ann_porosity] in
  let run := handleSkip (W := list FormData) before before [] in
  mode (session before) = active_learning
  /\ currentSuggestionId (session before) = Some 42
  /\ trace run = []
  /\ List.length (backend_calls (trace run)) <> 1%nat.
Proof.
  cbv zeta. repeat split. discriminate.
Qed.

(* ------------------------------------------------------------------ *)
(** ** Adding an annotation *)


Lemma Qgtb_false (x y : Q) : Qgtb x y = false <-> (x <= y)%Q.
Proof.
  unfold Qgtb. rewrite negb_false_iff. apply Qle_bool_iff.
Qed.

Lemma truthy_number_nonzero (n : Z) : n <> 0 -> truthy_number (Some n) = true.
Proof.
  intros Hn. unfold truthy_number. destruct (Z.eqb_spec n 0); [contradiction|reflexivity].
Qed.

(** The class selected and listed: the annotation is appended. *)
Lemma handleAddAnnotation_appends {W : Type} (r p : PageState) (b : BBox) (w : W)
    (cid : Z) (t : CustomDefectType) :
  selectedClassId r = Some cid ->
  cid <> 0 ->
  find_type cid (defectTypes r) = Some t ->
  handleAddAnnotation r b p w
  = mkRun (inl tt)
          (setSession
             (with_annotations
                (annotations (session p)
                 ++ [ {| bbox := b; class_id := cid; class_name := name t |} ])%list
                (session p))
             p)
          w [].
Proof.
  intros Hsel Hnz Hfind. unfold handleAddAnnotation.
  rewrite Hsel, (truthy_number_nonzero cid Hnz). cbn [negb].
  rewrite Hfind. reflexivity.
Qed.


(** What releasing the mouse makes the canvas call. *)
Lemma handleMouseUp_calls (c : CanvasState) :
  snd (handleMouseUp c) = []
  \/ exists b, currentBox c = Some b /\ snd (handleMouseUp c) = [OnAddAnnotation b].
Proof.
  unfold handleMouseUp.
  destruct (isDrawing c); [|left; reflexivity].
  destruct (currentBox c) as [b|]; [|left; reflexivity].
  cbn [snd].
  destruct (Qgtb (box_width b) min_box_size && Qgtb (box_height b) min_box_size).
  - right. exists b. split; reflexivity.
  - left. reflexivity.
Qed.





(* ------------------------------------------------------------------ *)
(** ** The suggestion id and the mode *)

Section Invariant.
Context {W : Type} {api : CustomDefectsAPI W}.

(** A save leaves the session as it was or installs the initial one. *)
Lemma save_session_cases (r : PageState) (w : W) :
  session (page (handleSaveAnnotations r r w)) = session r
  \/ session (page (handleSaveAnnotations r r w)) = empty_session.
Proof.
  destruct (image_loaded (session r)) eqn:Himg.
  2:{ left. rewrite (save_refused r r w (or_introl Himg)). reflexivity. }
  destruct (annotations (session r)) as [|a0 rest] eqn:Hanns.
  { left. rewrite (save_refused r r w (or_intror Hanns)). reflexivity. }
  assert (Hne : annotations (session r) <> []) by congruence.
  destruct (first_rejected (sample_requests (session r)) w) as [[k e]|] eqn:Hrej.
  - left. rewrite (save_rejected r w k e Himg Hne Hrej). reflexivity.
  - right. pose proof (save_resolved r w Himg Hne Hrej) as Hrun.
    cbv zeta in Hrun. rewrite Hrun. cbn [page setSaving session].
    apply loadDefectTypes_frame.
Qed.

(** Adding an annotation keeps the mode and the suggestion id. *)
Lemma handleAddAnnotation_keeps_mode (r p : PageState) (b : BBox) (w : W) :
  mode (session (page (handleAddAnnotation r b p w))) = mode (session p)
  /\ currentSuggestionId (session (page (handleAddAnnotation r b p w)))
     = currentSuggestionId (session p).
Proof.
  unfold handleAddAnnotation.
  destruct (negb (truthy_number (selectedClassId r))); [split; reflexivity|].
  destruct (find_type _ (defectTypes r)); split; reflexivity.
Qed.

(** Every action but the switch to manual mode under a suggestion id
    preserves the invariant. *)
Lemma perform_preserves_invariant (op : Op) (p : PageState) (w : W) :
  suggestion_only_in_active_learning (session p) ->
  ~ drops_mode_of_suggestion op p ->
  suggestion_only_in_active_learning (session (page (perform op p w))).
Proof.
  intros Hinv Hkeep. unfold perform.
  destruct op as [ | m | classId | path iid | path iid sugg | b | index | | ];
    cbn [handler].
  - destruct (loadDefectTypes_frame p p w) as (_ & -> & _). exact Hinv.
  - destruct m.
    + intros sid Hsid. cbn in Hsid. exfalso. apply Hkeep.
      split; [reflexivity|congruence].
    + intros sid _. reflexivity.
  - exact Hinv.
  - intros sid Hsid. discriminate.
  - intros sid _. reflexivity.
  - destruct (handleAddAnnotation_keeps_mode p p b w) as [Hm Hs].
    intros sid Hsid. rewrite Hm. rewrite Hs in Hsid. exact (Hinv sid Hsid).
  - intros sid Hsid. exact (Hinv sid Hsid).
  - destruct (save_session_cases p w) as [-> | ->].
    + exact Hinv.
    + intros sid Hsid. discriminate.
  - destruct (skip_session_reset p p w) as [_ ->].
    intros sid Hsid. discriminate.
Qed.
End Invariant.

(** C5 (as the code has it). In every page state reached from the first
    render by loading the defect types, selecting a mode or a class,
    acquiring an image by upload or from a suggestion, adding or removing an
    annotation, saving and skipping, where manual mode was never selected
    while a suggestion id was set, the suggestion id is set only in mode
    [active_learning]. *)
Theorem suggestion_id_only_in_active_learning_unless_mode_switched
    {W : Type} {api : CustomDefectsAPI W} (p : PageState) :
  reachable_keeping_mode p ->
  suggestion_only_in_active_learning (session p).
Proof.
  intros Hreach. induction Hreach as [|op p w _ IH Hkeep].
  - intros sid Hsid. discriminate.
  - exact (perform_preserves_invariant op p w IH Hkeep).
Qed.

Lemma suggestion_id_only_in_active_learning_unless_mode_switched_witness :
  suggestion_only_in_active_learning
    (session (fst (perform_all (api := rejecting_store 13)
                     take_suggestion initial_page []))).
Proof.
  apply (suggestion_id_only_in_active_learning_unless_mode_switched
           (api := rejecting_store 13)).
  unfold take_suggestion. cbn [perform_all fst].
  repeat (apply keeping_perform; [|intros [Hop _]; discriminate Hop]).
  apply keeping_initial.
Defined.

(** C5 as stated fails: selecting manual mode while the image of a
    suggestion is loaded keeps the suggestion id under mode [manual]. *)
Lemma manual_mode_keeps_suggestion_id :
  exists p : PageState,
    reachable (api := rejecting_store 13) p
    /\ p = fst (perform_all (api := rejecting_store 13)
                  (take_suggestion ++ [OpSelectMode manual]) initial_page [])
    /\ currentSuggestionId (session p) = Some 42
    /\ mode (session p) = manual
    /\ ~ suggestion_only_in_active_learning (session p).
Proof.
  eexists. split; [|split; [reflexivity|split; [|split]]].
  - unfold take_suggestion. cbn [app perform_all fst].
    repeat apply reachable_perform. apply reachable_initial.
  - reflexivity.
  - reflexivity.
  - intros Hinv. specialize (Hinv 42 eq_refl). discriminate Hinv.
Qed.

From Stdlib Require Import Lqa.

(* ================================================================== *)
(** * Further properties of the page *)

(** X1. When the registry answers, [loadDefectTypes] ends without throwing
    after one request for the active types: the answer is installed, the
    error is cleared and the loading flag is down.  The selected class is
    kept when the render had a truthy one; otherwise the first type of the
    answer is selected, and nothing is selected from an empty answer.  The
    session and the saving flag are untouched. *)
Theorem loadDefectTypes_installs_the_answer
    {W : Type} {api : CustomDefectsAPI W} (r p : PageState) (w : W) (types : list CustomDefectType) :
  fst (getCustomDefectTypes true w) = inl types ->
  let run := loadDefectTypes r p w in
  outcome run = inl tt
  /\ trace run = [CallGetCustomDefectTypes true]
  /\ defectTypes (page run) = types
  /\ error (page run) = None
  /\ loading (page run) = false
  /\ selectedClassId (page run)
     = (if truthy_number (selectedClassId r) then selectedClassId p
        else match types with
             | t0 :: _ => Some (id t0)
             | [] => selectedClassId p
             end)
  /\ session (page run) = session p
  /\ saving (page run) = saving p.
Proof.
  intros Hget. cbv zeta.
  pose proof (loadDefectTypes_resolved r p w types Hget) as Hrun.
  cbv zeta in Hrun. rewrite Hrun. cbn [outcome trace page].
  destruct types as [|t0 types];
    [|destruct (truthy_number (selectedClassId r))];
    cbn [negb]; repeat split;
    destruct (truthy_number (selectedClassId r)); reflexivity.
Qed.

Lemma loadDefectTypes_installs_the_answer_witness :
  let run := loadDefectTypes (api := rejecting_store 13) initial_page initial_page [] in
  outcome run = inl tt
  /\ trace run = [CallGetCustomDefectTypes true]
  /\ defectTypes (page run) = example_types
  /\ error (page run) = None
  /\ loading (page run) = false
  /\ selectedClassId (page run)
     = (if truthy_number (selectedClassId initial_page)
        then selectedClassId initial_page
        else match example_types with
             | t0 :: _ => Some (id t0)
             | [] => selectedClassId initial_page
             end)
  /\ session (page run) = session initial_page
  /\ saving (page run) = saving initial_page.
Proof.
  apply (loadDefectTypes_installs_the_answer (api := rejecting_store 13)
           initial_page initial_page [] example_types).
  reflexivity.
Defined.

(** X2. When the registry request is rejected, [loadDefectTypes] still ends
    without throwing: it logs the error and stores its detail, or
    [Failed to load defect types] when the detail is missing or empty, as
    the page error; the list of types, the selected class, the session and
    the saving flag stay as they were, and the loading flag is down. *)
Theorem loadDefectTypes_rejection_becomes_page_error
    {W : Type} {api : CustomDefectsAPI W} (r p : PageState) (w : W) (err : ApiError) :
  fst (getCustomDefectTypes true w) = inr err ->
  let run := loadDefectTypes r p w in
  outcome run = inl tt
  /\ trace run = [ CallGetCustomDefectTypes true;
                   ConsoleError "Failed to load defect types:" err ]
  /\ error (page run) = Some (or_else (detail err) "Failed to load defect types")
  /\ error (page run) <> None
  /\ loading (page run) = false
  /\ defectTypes (page run) = defectTypes p
  /\ selectedClassId (page run) = selectedClassId p
  /\ session (page run) = session p
  /\ saving (page run) = saving p.
Proof.
  intros Hget. cbv zeta.
  rewrite (loadDefectTypes_rejected r p w err Hget). cbn [outcome trace page].
  repeat split. discriminate.
Qed.

Lemma loadDefectTypes_rejection_becomes_page_error_witness :
  let run := loadDefectTypes (api := offline_registry) initial_page initial_page tt in
  outcome run = inl tt
  /\ trace run = [ CallGetCustomDefectTypes true;
                   ConsoleError "Failed to load defect types:" {| detail := None |} ]
  /\ error (page run) = Some (or_else None "Failed to load defect types")
  /\ error (page run) <> None
  /\ loading (page run) = false
  /\ defectTypes (page run) = defectTypes initial_page
  /\ selectedClassId (page run) = selectedClassId initial_page
  /\ session (page run) = session initial_page
  /\ saving (page run) = saving initial_page.
Proof.
  apply (loadDefectTypes_rejection_becomes_page_error (api := offline_registry)
           initial_page initial_page tt {| detail := None |}).
  reflexivity.
Defined.

(** X3. With no class selected, or with the class id [0] selected,
    [handleAddAnnotation] only alerts [Please select a defect class first]:
    the page state is unchanged, whatever the box and the list of types. *)
Theorem addAnnotation_without_class_only_alerts
    {W : Type} (r p : PageState) (b : BBox) (w : W) :
  selectedClassId r = None \/ selectedClassId r = Some 0 ->
  handleAddAnnotation r b p w
  = mkRun (inl tt) p w [Alert "Please select a defect class first"].
Proof.
  intros [H|H]; unfold handleAddAnnotation; rewrite H; reflexivity.
Qed.

Lemma addAnnotation_without_class_only_alerts_witness :
  handleAddAnnotation (W := list FormData)
    (setSelectedClassId (Some 0) (uploaded_page [])) example_box
    (setSelectedClassId (Some 0) (uploaded_page [])) []
  = mkRun (inl tt) (setSelectedClassId (Some 0) (uploaded_page [])) []
          [Alert "Please select a defect class first"].
Proof.
  apply addAnnotation_without_class_only_alerts. right. reflexivity.
Defined.

Lemma remove_last_of_snoc {A : Type} (l : list A) (a : A) :
  filter_index (fun _ i => negb (i =? Z.of_nat (List.length l))) (l ++ [a])%list = l.
Proof.
  unfold filter_index.
  rewrite <- (Z.add_0_l (Z.of_nat (List.length l))).
  rewrite filter_index_from_at by (rewrite length_app; cbn; lia).
  rewrite firstn_app, Nat.sub_diag, firstn_all. cbn [firstn].
  rewrite skipn_all2 by (rewrite length_app; cbn; lia).
  rewrite !app_nil_r. reflexivity.
Qed.

(** X4. Removing the annotation at the last position right after an
    annotation was added gives back the page state from before the
    addition. *)
Theorem remove_last_undoes_addAnnotation
    {W : Type} (r p : PageState) (b : BBox) (w : W) (cid : Z)
    (t : CustomDefectType) :
  selectedClassId r = Some cid ->
  cid <> 0 ->
  find_type cid (defectTypes r) = Some t ->
  let added := page (handleAddAnnotation r b p w) in
  List.length (annotations (session added))
  = S (List.length (annotations (session p)))
  /\ page (handleRemoveAnnotation
             (Z.of_nat (List.length (annotations (session p)))) added w)
     = p.
Proof.
  intros Hsel Hnz Hfind. cbv zeta.
  rewrite (handleAddAnnotation_appends r p b w cid t Hsel Hnz Hfind).
  cbn [page]. unfold handleRemoveAnnotation, update. cbn [page].
  cbn [setSession session with_annotations annotations].
  split.
  - rewrite length_app. cbn. lia.
  - rewrite remove_last_of_snoc.
    destruct p as [dt [m ip ii si an] sc ld er sv]. reflexivity.
Qed.

Lemma remove_last_undoes_addAnnotation_witness :
  let p := uploaded_page [ann_crack] in
  let added := page (handleAddAnnotation (W := list FormData) p example_box p []) in
  List.length (annotations (session added))
  = S (List.length (annotations (session p)))
  /\ page (handleRemoveAnnotation (W := list FormData)
             (Z.of_nat (List.length (annotations (session p)))) added [])
     = p.
Proof.
  apply (remove_last_undoes_addAnnotation (W := list FormData)
           (uploaded_page [ann_crack]) (uploaded_page [ann_crack]) example_box [] 2
           {| id := 2; name := "porosity"; color := Some "#ff0000";
              current_sample_count := 3; min_samples_required := 10 |}).
  - reflexivity.
  - lia.
  - reflexivity.
Defined.

(** X5. [handleSaveAnnotations] never throws, whatever the backend answers:
    a rejected request ends in its [catch].  The session it leaves is the
    one before the save or the initial one, and when the save was not
    refused at its guard the saving flag is down at the end. *)
Theorem save_never_throws
    {W : Type} {api : CustomDefectsAPI W} (r : PageState) (w : W) :
  let run := handleSaveAnnotations r r w in
  outcome run = inl tt
  /\ (session (page run) = session r \/ session (page run) = empty_session)
  /\ (image_loaded (session r) = true /\ annotations (session r) <> [] ->
      saving (page run) = false)
  /\ (image_loaded (session r) = false \/ annotations (session r) = [] ->
      page run = r /\ world run = w).
Proof.
  cbv zeta.
  split; [|split; [apply save_session_cases|split]].
  - destruct (image_loaded (session r)) eqn:Himg.
    2:{ rewrite (save_refused r r w (or_introl Himg)). reflexivity. }
    destruct (annotations (session r)) as [|a0 rest] eqn:Hanns.
    { rewrite (save_refused r r w (or_intror Hanns)). reflexivity. }
    assert (Hne : annotations (session r) <> []) by congruence.
    destruct (first_rejected (sample_requests (session r)) w) as [[k e]|] eqn:Hrej.
    + rewrite (save_rejected r w k e Himg Hne Hrej). reflexivity.
    + pose proof (save_resolved r w Himg Hne Hrej) as Hrun.
      cbv zeta in Hrun. rewrite Hrun. reflexivity.
  - intros [Himg Hne].
    destruct (first_rejected (sample_requests (session r)) w) as [[k e]|] eqn:Hrej.
    + rewrite (save_rejected r w k e Himg Hne Hrej). reflexivity.
    + pose proof (save_resolved r w Himg Hne Hrej) as Hrun.
      cbv zeta in Hrun. rewrite Hrun. reflexivity.
  - intros Hrefused. rewrite (save_refused r r w Hrefused). split; reflexivity.
Qed.

Lemma save_never_throws_witness :
  let r := uploaded_page [ann_crack] in
  let run := handleSaveAnnotations (api := rejecting_store 13) r r [] in
  outcome run = inl tt /\ saving (page run) = false.
Proof.
  cbv zeta. split.
  - apply (save_never_throws (api := rejecting_store 13) (uploaded_page [ann_crack]) []).
  - apply (save_never_throws (api := rejecting_store 13) (uploaded_page [ann_crack]) []).
    split; [reflexivity|discriminate].
Defined.

(** X6. Saving again after a save that failed at position [k] sends the
    requests of all the annotations again, those before [k] included, which
    the store had already accepted the first time: when the store accepts
    them all now, each of these annotations has been committed twice. *)
Theorem retry_after_failure_resends_accepted_annotations
    {W : Type} {api : CustomDefectsAPI W}
    (r : PageState) (w w2 : W) (k : nat) (e : ApiError) :
  image_loaded (session r) = true ->
  annotations (session r) <> [] ->
  first_rejected (sample_requests (session r)) w = Some (k, e) ->
  first_rejected (sample_requests (session r)) w2 = None ->
  let first := handleSaveAnnotations r r w in
  let again := handleSaveAnnotations (page first) (page first) w2 in
  sample_commits (trace first)
  = List.map CallAddTrainingSample (firstn (S k) (sample_requests (session r)))
  /\ sample_commits (trace again)
     = List.map CallAddTrainingSample (sample_requests (session r))
  /\ firstn k (sample_commits (trace again)) = firstn k (sample_commits (trace first))
  /\ session (page again) = empty_session.
Proof.
  intros Himg Hne Hrej Hok. cbv zeta.
  rewrite (save_rejected r w k e Himg Hne Hrej). cbn [page trace].
  assert (Hsame : session (setSaving false (setSaving true r)) = session r)
    by reflexivity.
  assert (Himg2 : image_loaded (session (setSaving false (setSaving true r))) = true)
    by exact Himg.
  assert (Hne2 : annotations (session (setSaving false (setSaving true r))) <> [])
    by exact Hne.
  assert (Hok2 : first_rejected
                   (sample_requests (session (setSaving false (setSaving true r))))
                   w2 = None) by exact Hok.
  pose proof (save_resolved _ w2 Himg2 Hne2 Hok2) as Hrun.
  cbv zeta in Hrun. rewrite Hrun. cbn [page trace]. rewrite Hsame.
  destruct (loadDefectTypes_frame (setSaving false (setSaving true r))
              (setSession empty_session
                 (setSaving true (setSaving false (setSaving true r))))
              (after_requests (sample_requests (session r)) w2))
    as (_ & Hsession & _ & Hcommits).
  assert (Hfirst : sample_commits
                     (List.map CallAddTrainingSample
                        (firstn (S k) (sample_requests (session r)))
                      ++ [ ConsoleError "Failed to save annotations:" e;
                           Alert (or_else (detail e) "Failed to save annotations") ])
                   = List.map CallAddTrainingSample
                       (firstn (S k) (sample_requests (session r)))).
  { unfold sample_commits. rewrite filter_app.
    cbn [List.filter is_sample_commit]. rewrite app_nil_r.
    apply (proj1 (calls_of_requests _)). }
  assert (Hagain : sample_commits
                     (List.map CallAddTrainingSample (sample_requests (session r))
                      ++ AlertSaved (List.length (annotations (session r)))
                         :: trace (loadDefectTypes (setSaving false (setSaving true r))
                                     (setSession empty_session
                                        (setSaving true
                                           (setSaving false (setSaving true r))))
                                     (after_requests (sample_requests (session r)) w2)))
                   = List.map CallAddTrainingSample (sample_requests (session r))).
  { unfold sample_commits in *. rewrite filter_app.
    cbn [List.filter is_sample_commit]. rewrite Hcommits, app_nil_r.
    apply (proj1 (calls_of_requests _)). }
  rewrite Hfirst, Hagain.
  split; [reflexivity|split; [reflexivity|split]].
  - rewrite <- !firstn_map.
    rewrite firstn_firstn. f_equal. lia.
  - cbn [setSaving session]. rewrite Hsession. reflexivity.
Qed.

Lemma retry_after_failure_resends_accepted_annotations_witness :
  let r := uploaded_page [ann_porosity; ann_crack] in
  let first := handleSaveAnnotations (api := quota_store) r r 1%nat in
  let again := handleSaveAnnotations (api := quota_store) (page first) (page first) 5%nat in
  sample_commits (trace first)
  = List.map CallAddTrainingSample (firstn 2 (sample_requests (session r)))
  /\ sample_commits (trace again)
     = List.map CallAddTrainingSample (sample_requests (session r))
  /\ firstn 1 (sample_commits (trace again)) = firstn 1 (sample_commits (trace first))
  /\ session (page again) = empty_session.
Proof.
  apply (retry_after_failure_resends_accepted_annotations (api := quota_store)
           (uploaded_page [ann_porosity; ann_crack]) 1%nat 5%nat 1
           {| detail := Some "quota exceeded" |}).
  - reflexivity.
  - discriminate.
  - reflexivity.
  - reflexivity.
Defined.

(** X7. After a save all of whose requests were accepted, the success alert
    is shown and the defect types are requested once more.  When that
    request is answered the new list is installed; when it is rejected the
    rejection becomes the page error and the old list stays.  In both cases
    the session is the initial one and the handler does not throw. *)
Theorem successful_save_reloads_defect_types
    {W : Type} {api : CustomDefectsAPI W} (r : PageState) (w : W) :
  image_loaded (session r) = true ->
  annotations (session r) <> [] ->
  first_rejected (sample_requests (session r)) w = None ->
  let run := handleSaveAnnotations r r w in
  let stored := after_requests (sample_requests (session r)) w in
  let sent := (List.map CallAddTrainingSample (sample_requests (session r))
               ++ [ AlertSaved (List.length (annotations (session r)));
                    CallGetCustomDefectTypes true ])%list in
  outcome run = inl tt
  /\ session (page run) = empty_session
  /\ world run = snd (getCustomDefectTypes true stored)
  /\ (forall types, fst (getCustomDefectTypes true stored) = inl types ->
        trace run = sent
        /\ defectTypes (page run) = types
        /\ error (page run) = None)
  /\ (forall err, fst (getCustomDefectTypes true stored) = inr err ->
        trace run = (sent ++ [ConsoleError "Failed to load defect types:" err])%list
        /\ defectTypes (page run) = defectTypes r
        /\ error (page run)
           = Some (or_else (detail err) "Failed to load defect types")).
Proof.
  intros Himg Hne Hok. cbv zeta.
  pose proof (save_resolved r w Himg Hne Hok) as Hrun. cbv zeta in Hrun.
  rewrite Hrun. cbn [outcome page world trace]. clear Hrun.
  destruct (fst (getCustomDefectTypes true
                   (after_requests (sample_requests (session r)) w)))
    as [types|err] eqn:Hget.
  - pose proof (loadDefectTypes_resolved r
                  (setSession empty_session (setSaving true r)) _ types Hget)
      as Hload.
    cbv zeta in Hload. rewrite Hload. cbn [page world trace].
    split; [reflexivity|]. split.
    { destruct types as [|t0 types];
        [|destruct (negb (truthy_number (selectedClassId r)))]; reflexivity. }
    split; [reflexivity|]. split.
    + intros types' Heq. injection Heq as <-.
      split; [reflexivity|].
      destruct types as [|t0 types];
        [|destruct (negb (truthy_number (selectedClassId r)))];
        split; reflexivity.
    + intros err Heq. discriminate Heq.
  - rewrite (loadDefectTypes_rejected r
               (setSession empty_session (setSaving true r)) _ err Hget).
    cbn [page world trace].
    split; [reflexivity|]. split; [reflexivity|]. split; [reflexivity|]. split.
    + intros types Heq. discriminate Heq.
    + intros err' Heq. injection Heq as <-.
      rewrite <- app_assoc. repeat split.
Qed.

Lemma successful_save_reloads_defect_types_witness :
  let r := setDefectTypes [] (uploaded_page [ann_porosity]) in
  let run := handleSaveAnnotations (api := rejecting_store 13) r r [] in
  outcome run = inl tt
  /\ session (page run) = empty_session
  /\ defectTypes (page run) = example_types.
Proof.
  cbv zeta.
  pose proof (successful_save_reloads_defect_types (api := rejecting_store 13)
                (setDefectTypes [] (uploaded_page [ann_porosity])) []
                eq_refl ltac:(discriminate) eq_refl) as H.
  cbv zeta in H. destruct H as (Hout & Hsession & _ & Hanswer & _).
  split; [exact Hout|]. split; [exact Hsession|].
  exact (proj1 (proj2 (Hanswer example_types eq_refl))).
Defined.

(** X8. Without a loaded image [handleSaveAnnotations] is refused at its
    guard even when the session holds annotations: it alerts
    [Please add at least one annotation], sends nothing and changes
    nothing. *)
Theorem save_without_image_is_refused
    {W : Type} {api : CustomDefectsAPI W} (r p : PageState) (w : W) :
  image_loaded (session r) = false ->
  handleSaveAnnotations r p w
  = mkRun (inl tt) p w [Alert "Please add at least one annotation"].
Proof.
  intros Himg. exact (save_refused r p w (or_introl Himg)).
Qed.

Lemma save_without_image_is_refused_witness :
  let r := setSession (with_annotations [ann_porosity] empty_session) initial_page in
  annotations (session r) = [ann_porosity]
  /\ handleSaveAnnotations (api := rejecting_store 13) r r []
     = mkRun (inl tt) r [] [Alert "Please add at least one annotation"].
Proof.
  cbv zeta. split; [reflexivity|].
  apply (save_without_image_is_refused (api := rejecting_store 13)).
  reflexivity.
Defined.

(* ================================================================== *)
(** * Further properties of the canvas *)

Lemma degenerate_box_is_small (x y : Q) :
  Qgtb (box_width (x, y, x, y)) min_box_size = false.
Proof.
  apply Qgtb_false. cbn [box_width]. unfold Qminus.
  rewrite Qplus_opp_r. discriminate.
Qed.

Lemma handleMouseUp_idle (c : CanvasState) :
  isDrawing c = false -> handleMouseUp c = (setIsDrawing false c, []).
Proof. intros H. unfold handleMouseUp. rewrite H. reflexivity. Qed.

Lemma handleMouseUp_ends_drawing (c : CanvasState) :
  isDrawing (fst (handleMouseUp c)) = false.
Proof.
  unfold handleMouseUp.
  destruct (isDrawing c); [|reflexivity].
  destruct (currentBox c); reflexivity.
Qed.

(** X9. Pressing and releasing the mouse without moving it, on a canvas that
    was not drawing, never calls [onAddAnnotation]: the box spans no width.
    The only call there can be is the alert for a missing class. *)
Theorem click_without_drag_adds_nothing
    (selected : option Z) (anns : list Annotation) (c : CanvasState)
    (e : MouseEvent) :
  isDrawing c = false ->
  snd (canvas_steps selected anns [EvMouseDown e; EvMouseUp] c) = []
  \/ snd (canvas_steps selected anns [EvMouseDown e; EvMouseUp] c)
     = [CanvasAlert "Please select a defect class first"].
Proof.
  intros Hidle. cbn [canvas_steps canvas_step fst snd].
  unfold handleMouseDown.
  destruct (negb (truthy_number selected)).
  - right. cbn [fst snd]. rewrite (handleMouseUp_idle c Hidle). reflexivity.
  - left. destruct (getCanvasCoordinates c e) as [coords|]; cbn [fst snd].
    + unfold handleMouseUp. cbn [isDrawing currentBox setCurrentBox setDrawStart setIsDrawing].
      cbn [snd]. rewrite degenerate_box_is_small. reflexivity.
    + rewrite (handleMouseUp_idle c Hidle). reflexivity.
Qed.

Lemma click_without_drag_adds_nothing_witness :
  let pressed := fst (canvas_step (Some 2) [] (EvMouseDown example_move) idle_canvas) in
  isDrawing pressed = true
  /\ (exists x y : Q, currentBox pressed = Some (x, y, x, y))
  /\ (snd (canvas_steps (Some 2) [] [EvMouseDown example_move; EvMouseUp]
            idle_canvas)
      = []
      \/ snd (canvas_steps (Some 2) [] [EvMouseDown example_move; EvMouseUp]
               idle_canvas)
         = [CanvasAlert "Please select a defect class first"]).
Proof.
  cbv zeta. split; [reflexivity|]. split.
  - eexists. eexists. reflexivity.
  - apply click_without_drag_adds_nothing. reflexivity.
Defined.

(** X10. The mouse leaving the canvas after its button was released calls
    nothing more: [handleMouseUp] run twice makes the calls of the first run
    only, so one drag adds at most one annotation. *)
Theorem mouse_leave_after_mouse_up_adds_nothing
    (selected : option Z) (anns : list Annotation) (c : CanvasState) :
  snd (canvas_steps selected anns [EvMouseUp; EvMouseLeave] c) = snd (handleMouseUp c)
  /\ (List.length (snd (canvas_steps selected anns [EvMouseUp; EvMouseLeave] c)) <= 1)%nat
  /\ isDrawing (fst (canvas_steps selected anns [EvMouseUp; EvMouseLeave] c)) = false.
Proof.
  cbn [canvas_steps canvas_step fst snd].
  rewrite (handleMouseUp_idle _ (handleMouseUp_ends_drawing c)).
  cbn [fst snd]. rewrite !app_nil_r.
  split; [reflexivity|]. split; [|reflexivity].
  destruct (handleMouseUp_calls c) as [-> | (b & _ & ->)]; cbn; lia.
Qed.




Lemma canvas_step_unselected (selected : option Z) (anns : list Annotation)
    (ev : CanvasEvent) (c : CanvasState) :
  truthy_number selected = false ->
  isDrawing c = false ->
  (forall b, ~ In (OnAddAnnotation b) (snd (canvas_step selected anns ev c)))
  /\ isDrawing (fst (canvas_step selected anns ev c)) = false.
Proof.
  intros Hsel Hidle.
  destruct ev as [e|e| | |e| | | |containerRef img]; cbn [canvas_step].
  - unfold handleMouseDown. rewrite Hsel. cbn [negb fst snd]. split; [|exact Hidle].
    intros b [H|[]]. discriminate H.
  - unfold handleMouseMove. rewrite Hidle. cbn [fst snd]. split; [intros b []|exact Hidle].
  - rewrite (handleMouseUp_idle c Hidle). cbn [fst snd]. split; [intros b []|reflexivity].
  - rewrite (handleMouseUp_idle c Hidle). cbn [fst snd]. split; [intros b []|reflexivity].
  - unfold handleCanvasClick. split.
    + intros b Hin. destruct (hoveredIndex c); cbn [snd] in Hin;
        [destruct (ctrlKey e || metaKey e); cbn in Hin|]; intuition discriminate.
    + destruct (hoveredIndex c); exact Hidle.
  - cbn [fst snd]. split; [intros b []|exact Hidle].
  - cbn [fst snd]. split; [intros b []|exact Hidle].
  - cbn [fst snd]. split; [intros b []|exact Hidle].
  - cbn [fst snd]. split; [intros b []|destruct containerRef; exact Hidle].
Qed.

(** X12. While no class is selected (none, or the id [0]) a canvas that is
    not drawing never starts to draw and never calls [onAddAnnotation],
    whatever the events. *)
Theorem no_box_without_selected_class
    (selected : option Z) (anns : list Annotation) (evs : list CanvasEvent)
    (c : CanvasState) :
  truthy_number selected = false ->
  isDrawing c = false ->
  (forall b, ~ In (OnAddAnnotation b) (snd (canvas_steps selected anns evs c)))
  /\ isDrawing (fst (canvas_steps selected anns evs c)) = false.
Proof.
  intros Hsel. revert c. induction evs as [|ev evs IH]; intros c Hidle.
  - cbn. split; [intros b []|exact Hidle].
  - cbn [canvas_steps fst snd].
    destruct (canvas_step_unselected selected anns ev c Hsel Hidle) as [Hnone Hidle'].
    destruct (IH _ Hidle') as [Hrest Hfinal].
    split; [|exact Hfinal].
    intros b Hin. apply in_app_or in Hin. destruct Hin as [Hin|Hin].
    + exact (Hnone b Hin).
    + exact (Hrest b Hin).
Qed.

Lemma no_box_without_selected_class_witness :
  (forall b, ~ In (OnAddAnnotation b)
               (snd (canvas_steps (Some 0) []
                       [EvMouseDown example_move; EvMouseMove ctrl_click; EvMouseUp]
                       idle_canvas)))
  /\ isDrawing (fst (canvas_steps (Some 0) []
                       [EvMouseDown example_move; EvMouseMove ctrl_click; EvMouseUp]
                       idle_canvas)) = false.
Proof.
  apply no_box_without_selected_class; reflexivity.
Defined.

Lemma findIndex_from_spec {A : Type} (p : A -> bool) (base : Z) (l : list A) :
  (findIndex_from p base l = -1 /\ forall a, In a l -> p a = false)
  \/ exists (n : nat) (a : A),
       findIndex_from p base l = base + Z.of_nat n
       /\ List.nth_error l n = Some a
       /\ p a = true
       /\ forall (m : nat) (a' : A),
            (m < n)%nat -> List.nth_error l m = Some a' -> p a' = false.
Proof.
  revert base. induction l as [|x l IH]; intros base; cbn [findIndex_from].
  - left. split; [reflexivity|]. intros a [].
  - destruct (p x) eqn:Hpx.
    + right. exists 0%nat, x. rewrite Z.add_0_r.
      repeat split; try reflexivity; try assumption. intros m a' Hm. lia.
    + destruct (IH (base + 1)) as [[Hnone Hall] | (n & a & Hfound & Hnth & Hpa & Hbefore)].
      * left. split; [exact Hnone|].
        intros a [<-|Hin]; [exact Hpx|exact (Hall a Hin)].
      * right. exists (S n), a. repeat split.
        -- rewrite Hfound. lia.
        -- exact Hnth.
        -- exact Hpa.
        -- intros [|m] a' Hm Hnth'.
           ++ cbn in Hnth'. injection Hnth' as <-. exact Hpx.
           ++ cbn in Hnth'. apply (Hbefore m a'); [lia|exact Hnth'].
Qed.

(** X13. While a box is being drawn, a mouse move records as hovered the
    first annotation, in list order, whose box contains the mouse point,
    borders included; it records none exactly when no annotation contains
    the point. *)
Theorem hovered_index_is_first_annotation_under_mouse
    (anns : list Annotation) (c : CanvasState) (e : MouseEvent)
    (start coords : Point) :
  isDrawing c = true ->
  drawStart c = Some start ->
  getCanvasCoordinates c e = Some coords ->
  match hoveredIndex (fst (handleMouseMove anns c e)) with
  | Some i =>
      exists (n : nat) (a : Annotation),
        i = Z.of_nat n
        /\ List.nth_error anns n = Some a
        /\ inside coords a = true
        /\ forall (m : nat) (a' : Annotation),
             (m < n)%nat -> List.nth_error anns m = Some a' ->
             inside coords a' = false
  | None => forall a, In a anns -> inside coords a = false
  end.
Proof.
  intros Hdraw Hstart Hcoords. unfold handleMouseMove.
  rewrite Hdraw, Hstart, Hcoords. cbn [fst hoveredIndex setHoveredIndex].
  unfold findIndex.
  destruct (findIndex_from_spec (inside coords) 0 anns)
    as [[Hnone Hall] | (n & a & Hfound & Hnth & Hpa & Hbefore)].
  - rewrite Hnone. cbn. exact Hall.
  - rewrite Hfound.
    destruct (Z.geb_spec (0 + Z.of_nat n) 0) as [_|Hneg]; [|lia].
    exists n, a. repeat split; assumption.
Qed.

Lemma hovered_index_is_first_annotation_under_mouse_witness :
  let c := setIsDrawing true
             (setDrawStart (Some {| px := 0; py := 0 |}) idle_canvas) in
  let anns := [ann_crack; ann_porosity] in
  match getCanvasCoordinates c ctrl_click with
  | Some coords =>
      match hoveredIndex (fst (handleMouseMove anns c ctrl_click)) with
      | Some i =>
          exists (n : nat) (a : Annotation),
            i = Z.of_nat n
            /\ List.nth_error anns n = Some a
            /\ inside coords a = true
            /\ forall (m : nat) (a' : Annotation),
                 (m < n)%nat -> List.nth_error anns m = Some a' ->
                 inside coords a' = false
      | None => forall a, In a anns -> inside coords a = false
      end
  | None => False
  end.
Proof.
  exact (hovered_index_is_first_annotation_under_mouse
           [ann_crack; ann_porosity]
           (setIsDrawing true
              (setDrawStart (Some {| px := 0; py := 0 |}) idle_canvas))
           ctrl_click {| px := 0; py := 0 |} _ eq_refl eq_refl eq_refl).
Defined.

Lemma canvas_step_scale (selected : option Z) (anns : list Annotation)
    (ev : CanvasEvent) (c : CanvasState) :
  (forall containerRef img, ev <> EvImageLoad containerRef img) ->
  (1 # 10 <= scale c /\ scale c <= 5)%Q ->
  (1 # 10 <= scale (fst (canvas_step selected anns ev c))
   /\ scale (fst (canvas_step selected anns ev c)) <= 5)%Q.
Proof.
  intros Hnoload [Hlow Hhigh].
  destruct ev as [e|e| | |e| | | |containerRef img]; cbn [canvas_step fst].
  - unfold handleMouseDown. destruct (negb (truthy_number selected)); [auto|].
    destruct (getCanvasCoordinates c e); cbn [fst]; auto.
  - unfold handleMouseMove. destruct (isDrawing c); [|auto].
    destruct (drawStart c); [|auto].
    destruct (getCanvasCoordinates c e); cbn [fst]; auto.
  - unfold handleMouseUp. destruct (isDrawing c); [|auto].
    destruct (currentBox c); cbn [fst]; auto.
  - unfold handleMouseUp. destruct (isDrawing c); [|auto].
    destruct (currentBox c); cbn [fst]; auto.
  - unfold handleCanvasClick. destruct (hoveredIndex c); auto.
  - unfold handleZoomIn. cbn [scale setScale]. split.
    + apply Q.min_glb; [|discriminate]. lra.
    + apply Q.le_min_r.
  - unfold handleZoomOut. cbn [scale setScale]. split.
    + apply Q.le_max_r.
    + apply Q.max_lub; [|discriminate].
      apply Qle_shift_div_r; [reflexivity|]. lra.
  - cbn. split; discriminate.
  - exfalso. exact (Hnoload containerRef img eq_refl).
Qed.

(** X14. Zooming keeps the scale between 0.1 and 5: from a scale in that
    range (the reset value [1] is) no sequence of events other than the
    load of a new image leads out of it. *)
Theorem zoom_keeps_scale_in_range
    (selected : option Z) (anns : list Annotation) (evs : list CanvasEvent)
    (c : CanvasState) :
  (1 # 10 <= scale c)%Q ->
  (scale c <= 5)%Q ->
  (forall containerRef img, ~ In (EvImageLoad containerRef img) evs) ->
  (1 # 10 <= scale (fst (canvas_steps selected anns evs c))
   /\ scale (fst (canvas_steps selected anns evs c)) <= 5)%Q.
Proof.
  revert c. induction evs as [|ev evs IH]; intros c Hlow Hhigh Hnoload.
  - cbn. auto.
  - cbn [canvas_steps fst].
    destruct (canvas_step_scale selected anns ev c) as [Hlow' Hhigh'].
    { intros containerRef img Heq. apply (Hnoload containerRef img). left. exact Heq. }
    { auto. }
    apply IH; try assumption.
    intros containerRef img Hin. apply (Hnoload containerRef img). right. exact Hin.
Qed.

Lemma zoom_keeps_scale_in_range_witness :
  (1 # 10 <= scale (fst (canvas_steps None []
                           [EvZoomIn; EvZoomIn; EvZoomOut; EvResetView; EvZoomOut]
                           (initial_canvas None)))
   /\ scale (fst (canvas_steps None []
                    [EvZoomIn; EvZoomIn; EvZoomOut; EvResetView; EvZoomOut]
                    (initial_canvas None))) <= 5)%Q.
Proof.
  apply zoom_keeps_scale_in_range.
  - discriminate.
  - discriminate.
  - intros containerRef img Hin. cbn in Hin. intuition discriminate.
Defined.



(* ================================================================== *)
(** * What the user interface can store *)













(* ================================================================== *)
(** * Statistics and suggestions *)

Lemma fold_left_sum_from (types : list CustomDefectType) (acc : Z) :
  List.fold_left (fun sum t => sum + current_sample_count t) types acc
  = acc + totalSamples types.
Proof.
  unfold totalSamples. revert acc.
  induction types as [|t types IH]; intros acc; cbn [List.fold_left].
  - lia.
  - rewrite IH, (IH (0 + current_sample_count t)). lia.
Qed.

Lemma totalSamples_cons (t : CustomDefectType) (types : list CustomDefectType) :
  totalSamples (t :: types) = current_sample_count t + totalSamples types.
Proof.
  unfold totalSamples at 1. cbn [List.fold_left].
  rewrite fold_left_sum_from. lia.
Qed.

(** X19. The two counters of [LabelingStats] split the defect types: every
    type is either ready to train or in need of more samples and never
    both, so the two counts add up to the number of types, and the total
    of samples is the sum of the totals of the two groups. *)
Theorem stats_split_the_defect_types (types : list CustomDefectType) :
  (List.length (readyTypes types) + List.length (needMoreTypes types)
   = List.length types)%nat
  /\ (forall t, In t types ->
        (In t (readyTypes types) /\ ~ In t (needMoreTypes types)
         /\ min_samples_required t <= current_sample_count t)
        \/ (In t (needMoreTypes types) /\ ~ In t (readyTypes types)
            /\ current_sample_count t < min_samples_required t))
  /\ totalSamples types
     = totalSamples (readyTypes types) + totalSamples (needMoreTypes types).
Proof.
  unfold readyTypes, needMoreTypes. split; [|split].
  - induction types as [|t types IH]; [reflexivity|].
    cbn [List.filter List.length].
    destruct (Z.geb_spec (current_sample_count t) (min_samples_required t));
      destruct (Z.ltb_spec (current_sample_count t) (min_samples_required t));
      cbn [List.length]; lia.
  - intros t Hin.
    destruct (Z.ltb_spec (current_sample_count t) (min_samples_required t)) as [Hlt|Hge].
    + right. split; [|split; [|exact Hlt]].
      * apply filter_In. split; [exact Hin|]. apply Z.ltb_lt. exact Hlt.
      * intros H. apply filter_In in H. destruct H as [_ H].
        apply Z.geb_le in H. lia.
    + left. split; [|split; [|exact Hge]].
      * apply filter_In. split; [exact Hin|]. apply Z.geb_le. exact Hge.
      * intros H. apply filter_In in H. destruct H as [_ H].
        apply Z.ltb_lt in H. lia.
  - induction types as [|t types IH]; [reflexivity|].
    cbn [List.filter]. rewrite totalSamples_cons.
    destruct (Z.geb_spec (current_sample_count t) (min_samples_required t));
      destruct (Z.ltb_spec (current_sample_count t) (min_samples_required t));
      try lia; rewrite totalSamples_cons; lia.
Qed.

(** X20. The suggestion list is empty in every state of the component:
    [loadSuggestions] installs the empty list on every load.  So no card is
    rendered, and no click calls [onSelectImage]. *)
Theorem suggestions_are_never_offered (s : SuggestionsState) (i : nat) :
  suggestions_reachable s ->
  suggestions s = [] /\ clickCard s i = [].
Proof.
  intros Hreach.
  assert (Hempty : suggestions s = []).
  { destruct Hreach; reflexivity. }
  split; [exact Hempty|].
  unfold clickCard. rewrite Hempty. destruct i; reflexivity.
Qed.

Lemma suggestions_are_never_offered_witness :
  suggestions (loadSuggestions (loadSuggestions initial_suggestions)) = []
  /\ clickCard (loadSuggestions (loadSuggestions initial_suggestions)) 0 = [].
Proof.
  apply suggestions_are_never_offered.
  apply suggestions_loaded. apply suggestions_loaded. apply suggestions_mounted.
Defined.

(* ================================================================== *)
(** * Removing through the canvas *)

(** X22. A click on the canvas with Ctrl or Meta held while an annotation is
    recorded as hovered removes that annotation from the session and
    nothing else, and leaves the canvas state, the hovered index with it, as
    it was; a click without these keys, or with no hovered annotation,
    changes nothing.  No click shows anything or calls the backend. *)
Theorem ctrl_click_removes_hovered_annotation
    {W : Type} (p : PageState) (c : CanvasState) (e : MouseEvent) (w : W) :
  let res := canvas_event_on_page (W := W) (EvClick e) p c w in
  fst res = c
  /\ outcome (snd res) = inl tt
  /\ world (snd res) = w
  /\ trace (snd res) = []
  /\ (forall i, hoveredIndex c = Some i -> ctrlKey e || metaKey e = true ->
        page (snd res) = page (handleRemoveAnnotation i p w))
  /\ (hoveredIndex c = None \/ ctrlKey e || metaKey e = false ->
        page (snd res) = p).
Proof.
  cbv zeta. unfold canvas_event_on_page. cbn [canvas_step].
  unfold handleCanvasClick.
  destruct (hoveredIndex c) as [i|].
  - destruct (ctrlKey e || metaKey e); cbn [fst snd for_of run_call].
    + erewrite bind_returns by reflexivity. cbn [ret outcome page world trace app].
      repeat split.
      * intros j Hj _. injection Hj as <-. reflexivity.
      * intros [H|H]; discriminate H.
    + repeat split.
      * intros j _ H. discriminate H.
  - cbn [fst snd for_of]. repeat split.
    intros j H. discriminate H.
Qed.

Lemma ctrl_click_removes_hovered_annotation_witness :
  page (snd (canvas_event_on_page (W := list FormData) (EvClick ctrl_click)
               (uploaded_page [ann_crack; ann_porosity])
               (setHoveredIndex (Some 0) idle_canvas) []))
  = uploaded_page [ann_porosity].
Proof.
  rewrite (proj1 (proj2 (proj2 (proj2 (proj2
             (ctrl_click_removes_hovered_annotation (W := list FormData)
                (uploaded_page [ann_crack; ann_porosity])
                (setHoveredIndex (Some 0) idle_canvas) ctrl_click [])))))
             0 eq_refl eq_refl).
  reflexivity.
Defined.

(* ================================================================== *)
(** * The canvas in double precision *)

Import PrimFloat SpecFloat FloatOps FloatAxioms.
Local Open Scope float_scope.
#[local] Set Warnings "-inexact-float".

(* ------------------------------------------------------------------ *)
(** ** Comparisons of doubles *)



















Lemma double_handleMouseUp_large (c : F64.CanvasState) (b : F64.BBox) :
  F64.isDrawing c = true ->
  F64.currentBox c = Some b ->
  F64.gt (F64.box_width b) F64.min_box_size = true ->
  F64.gt (F64.box_height b) F64.min_box_size = true ->
  F64.handleMouseUp c
  = (F64.setCurrentBox None (F64.setDrawStart None (F64.setIsDrawing false c)),
     [F64.OnAddAnnotation b]).
Proof.
  intros Hdraw Hbox Hw Hh. unfold F64.handleMouseUp.
  rewrite Hdraw, Hbox. cbv zeta. rewrite Hw, Hh. reflexivity.
Qed.

Lemma double_handleMouseUp_small (c : F64.CanvasState) (b : F64.BBox) :
  F64.isDrawing c = true ->
  F64.currentBox c = Some b ->
  F64.gt (F64.box_width b) F64.min_box_size = false
  \/ F64.gt (F64.box_height b) F64.min_box_size = false ->
  F64.handleMouseUp c
  = (F64.setCurrentBox None (F64.setDrawStart None (F64.setIsDrawing false c)),
     []).
Proof.
  intros Hdraw Hbox Hsmall. unfold F64.handleMouseUp.
  rewrite Hdraw, Hbox. cbv zeta.
  destruct Hsmall as [-> | ->]; [reflexivity|].
  rewrite andb_false_r. reflexivity.
Qed.

(* ------------------------------------------------------------------ *)
(** ** Geometry of the canvas *)




(* ------------------------------------------------------------------ *)
(** ** Adding a box *)

(** C2 (as the code has it).  Releasing the mouse after dragging the box
    [b] of finite doubles: when [x2 - x1] and [y2 - y1], computed in double
    arithmetic, are both strictly greater than the double 0.005, and the
    selected class id is non-zero and is the id of a defect type of the
    loaded list, exactly one annotation, made of the values of [b] and that
    class, is appended at the end of the list, whose length grows by one;
    when one of the two tests fails, the page state is unchanged and
    nothing is shown: the box is dropped without any error. *)
Theorem addAnnotation_requires_box_above_minimum_size
    {W : Type} (r : PageState) (c : F64.CanvasState) (b : F64.BBox) (w : W) :
  F64.isDrawing c = true ->
  F64.currentBox c = Some b ->
  let run := snd (F64.mouseUp_on_page r c) r w in
  (F64.gt (F64.box_width b) F64.min_box_size = true ->
   F64.gt (F64.box_height b) F64.min_box_size = true ->
   F64.finite_box b = true ->
   forall (cid : Z) (t : CustomDefectType),
     selectedClassId r = Some cid ->
     cid <> 0%Z ->
     find_type cid (defectTypes r) = Some t ->
     annotations (session (page run))
     = (annotations (session r)
        ++ [ {| bbox := F64.box_value b; class_id := cid; class_name := name t |} ])%list
     /\ List.length (annotations (session (page run)))
        = S (List.length (annotations (session r)))
     /\ trace run = []
     /\ outcome run = inl tt)
  /\ (F64.gt (F64.box_width b) F64.min_box_size = false
      \/ F64.gt (F64.box_height b) F64.min_box_size = false ->
      page run = r /\ world run = w /\ trace run = [] /\ outcome run = inl tt).
Proof.
  intros Hdraw Hbox. cbv zeta. unfold F64.mouseUp_on_page. cbn [snd]. split.
  - intros Hw Hh _ cid t Hsel Hnz Hfind.
    rewrite (double_handleMouseUp_large c b Hdraw Hbox Hw Hh).
    cbn [snd for_of F64.run_call].
    erewrite bind_returns
      by exact (handleAddAnnotation_appends r r (F64.box_value b) w cid t Hsel Hnz Hfind).
    cbn [ret outcome page world trace app setSession session with_annotations annotations].
    repeat split.
    rewrite length_app. cbn [List.length]. lia.
  - intros Hsmall.
    rewrite (double_handleMouseUp_small c b Hdraw Hbox Hsmall).
    repeat split.
Qed.

Lemma addAnnotation_requires_box_above_minimum_size_witness :
  let shown := uploaded_page [ann_crack] in
  annotations
    (session (page (snd (F64.mouseUp_on_page (W := list FormData) shown
                           (F64.canvas_with_box F64.narrow_box)) shown [])))
  = [ann_crack;
     {| bbox := F64.box_value F64.narrow_box; class_id := 2;
        class_name := "porosity" |}]
  /\ page (snd (F64.mouseUp_on_page (W := list FormData) shown
                  (F64.canvas_with_box F64.tiny_box)) shown [])
     = shown.
Proof.
  cbv zeta. split.
  - apply (proj1 (addAnnotation_requires_box_above_minimum_size (W := list FormData)
                    (uploaded_page [ann_crack]) (F64.canvas_with_box F64.narrow_box)
                    F64.narrow_box [] eq_refl eq_refl)
                 eq_refl eq_refl eq_refl 2%Z
                 {| id := 2; name := "porosity"; color := Some "#ff0000"%string;
                    current_sample_count := 3; min_samples_required := 10 |}).
    + reflexivity.
    + lia.
    + reflexivity.
  - apply (proj2 (addAnnotation_requires_box_above_minimum_size (W := list FormData)
                    (uploaded_page [ann_crack])
                    (F64.canvas_with_box F64.tiny_box)
                    F64.tiny_box [] eq_refl eq_refl)).
    left. reflexivity.
Defined.

(** C2 as stated fails.  A box whose corners are the doubles 0 and 0.005,
    so that both dimensions are >= 0.005, drawn with a listed class
    selected, is not appended; a smaller box is dropped without anything
    reported; a box that passes the size test is not appended when the
    selected class has the id 0, although the list has that type (the
    message for a missing class is shown), nor when the selected id is not
    in the list. *)
Lemma box_of_exactly_minimum_size_is_dropped :
  let shown := uploaded_page [] in
  let run_edge := snd (F64.mouseUp_on_page (W := list FormData) shown
                         (F64.canvas_with_box F64.edge_box)) shown [] in
  let run_small := snd (F64.mouseUp_on_page (W := list FormData) shown
                          (F64.canvas_with_box F64.tiny_box)) shown [] in
  let zero_selected :=
    setSelectedClassId (Some 0%Z) (setDefectTypes types_with_zero shown) in
  let run_zero := snd (F64.mouseUp_on_page (W := list FormData) zero_selected
                         (F64.canvas_with_box F64.narrow_box)) zero_selected [] in
  let unlisted_selected := setSelectedClassId (Some 7%Z) shown in
  let run_unlisted :=
    snd (F64.mouseUp_on_page (W := list FormData) unlisted_selected
           (F64.canvas_with_box F64.narrow_box)) unlisted_selected [] in
  (0.005 <=? F64.box_width F64.edge_box) = true
  /\ (0.005 <=? F64.box_height F64.edge_box) = true
  /\ find_type 2 (defectTypes shown) <> None
  /\ List.length (annotations (session (page run_edge))) = 0%nat
  /\ (F64.box_width F64.tiny_box <? 0.005) = true
  /\ outcome run_small = inl tt
  /\ trace run_small = []
  /\ (0.005 <? F64.box_width F64.narrow_box) = true
  /\ (0.005 <? F64.box_height F64.narrow_box) = true
  /\ find_type 0 (defectTypes zero_selected) <> None
  /\ annotations (session (page run_zero)) = []
  /\ trace run_zero = [Alert "Please select a defect class first"]
  /\ annotations (session (page run_unlisted)) = []
  /\ trace run_unlisted = [].
Proof.
  cbv zeta. repeat split; try reflexivity; discriminate.
Qed.

(* ------------------------------------------------------------------ *)
(** ** A whole drag *)


